(** * stability_analysis: polarity-inversion-line detection and decay index

    A shallow embedding of [stability_analysis/core/decay_index.py],
    [stability_analysis/core/pil_detection.py] and
    [stability_analysis/core/magnetic_field.py].

    Numbers are IEEE binary64 values (Rocq's primitive floats), arrays
    are NumPy-style: a shape and a row-major buffer.  A Python call
    either returns a value or raises; [result] records which.  The
    NumPy/SciPy routines the modules call ([np.linspace], [np.diff],
    [np.gradient], [np.log], [RegularGridInterpolator]) are modelled
    from their documented algorithms; the scikit-image routines
    ([canny], [dilation], [thin]) and [ndimage.gaussian_filter] are
    section variables of [PILDetector]. *)

From Stdlib Require Import ZArith List Bool Lia PeanoNat.
From Stdlib Require Import Floats Uint63 SpecFloat.
Import ListNotations.

Set Warnings "-inexact-float".
Local Open Scope float_scope.

(** ** Outcomes of a Python call *)

Inductive exn : Set :=
| ValueError
| IndexError
| TypeError
| AttributeError.

Inductive result (A : Type) : Type :=
| Ok (a : A)
| Raise (e : exn).

Arguments Ok {A} a.
Arguments Raise {A} e.

Definition bind {A B : Type} (r : result A) (k : A -> result B) : result B :=
  match r with
  | Ok a => k a
  | Raise e => Raise e
  end.

Notation "x <- r ;; k" := (bind r (fun x => k))
  (at level 61, r at next level, right associativity).

Definition raises {A : Type} (r : result A) : Prop := exists e, r = Raise e.

(** ** NumPy arrays

    The extents along each axis and the entries in row-major order. *)

Record ndarray (A : Type) : Type := mk_ndarray {
  shape : list nat;
  flat : list A
}.

Arguments mk_ndarray {A} shape flat.
Arguments shape {A} _.
Arguments flat {A} _.

Definition ndim {A : Type} (a : ndarray A) : nat := length (shape a).

(** [a.size]: the product of the extents. *)
Definition size {A : Type} (a : ndarray A) : nat :=
  fold_right Nat.mul 1%nat (shape a).

Definition shape_eqb (s t : list nat) : bool :=
  if list_eq_dec Nat.eq_dec s t then true else false.

(** Elementwise operations keep the shape. *)
Definition amap {A B : Type} (f : A -> B) (a : ndarray A) : ndarray B :=
  mk_ndarray (shape a) (map f (flat a)).

(** ** binary64 helpers *)

Definition float_of_nat (n : nat) : float :=
  PrimFloat.of_uint63 (Uint63.of_Z (Z.of_nat n)).

Definition float_of_Z (z : Z) : float :=
  if (z <? 0)%Z then - PrimFloat.of_uint63 (Uint63.of_Z (- z))
  else PrimFloat.of_uint63 (Uint63.of_Z z).

(** [a >= b] of Python is [b <=? a]; any comparison with NaN is false. *)
Definition geb (a b : float) : bool := b <=? a.

(** ** np.linspace(start, stop, num), endpoint included *)

Definition set_last (l : list float) (v : float) : list float :=
  match l with
  | [] => []
  | _ => removelast l ++ [v]
  end.

Definition linspace (start stop : float) (num : nat) : list float :=
  let div := float_of_Z (Z.of_nat num - 1) in
  let delta := stop - start in
  let idx := map float_of_nat (seq 0 num) in
  let y :=
    if 0 <? div then
      let step := delta / div in
      if step =? 0 then map (fun i => i / div * delta) idx
      else map (fun i => i * step) idx
    else map (fun i => i * delta) idx in
  let y := map (fun v => v + start) y in
  if (1 <? num)%nat then set_last y stop else y.

(** ** np.diff *)

Fixpoint diff (l : list float) : list float :=
  match l with
  | a :: (b :: _) as t => (b - a) :: diff t
  | _ => []
  end.

(** ** np.log on binary64

    NumPy forwards to the C library's [log].  The special values are
    fixed by C99 Annex F: log(NaN) = NaN, log(+-0) = -inf, log(x) = NaN
    for x < 0, log(+inf) = +inf, log(1) = +0.  Elsewhere the value is
    the classical argument reduction x = 2^k (1+f), sqrt(2)/2 <= 1+f <
    sqrt(2), followed by the degree-14 minimax polynomial of fdlibm.
    At a finite positive argument another C library may round the last
    place differently; the special values are the same everywhere. *)

Module Libm.

Definition ln2_hi := 0x1.62e42feep-1.
Definition ln2_lo := 0x1.a39ef35793c76p-33.
Definition Lg1 := 0x1.5555555555593p-1.
Definition Lg2 := 0x1.999999997fa04p-2.
Definition Lg3 := 0x1.2492494229359p-2.
Definition Lg4 := 0x1.c71c51d8e78afp-3.
Definition Lg5 := 0x1.7466496cb03dep-3.
Definition Lg6 := 0x1.39a09d078c69fp-3.
Definition Lg7 := 0x1.2f112df3e5244p-3.

(** x = m * 2^k with m in [sqrt(2)/2, sqrt(2)), the cut taken on the
    leading 20 mantissa bits as fdlibm does. *)
Definition reduce (x : float) : float * Z :=
  let (m, e) := Z.frexp x in
  if 0x1.6a09ep-1 <=? m then (m, e) else (2 * m, (e - 1)%Z).

Definition log_finite (x : float) : float :=
  let (m, k) := reduce x in
  let f := m - 1 in
  let hfsq := 0.5 * f * f in
  let s := f / (2 + f) in
  let z := s * s in
  let w := z * z in
  let t1 := w * (Lg2 + w * (Lg4 + w * Lg6)) in
  let t2 := z * (Lg1 + w * (Lg3 + w * (Lg5 + w * Lg7))) in
  let R := t2 + t1 in
  let dk := float_of_Z k in
  s * (hfsq + R) + dk * ln2_lo - hfsq + f + dk * ln2_hi.

Definition log (x : float) : float :=
  if PrimFloat.is_nan x then nan
  else if x =? 0 then neg_infinity
  else if x <? 0 then nan
  else if x =? infinity then infinity
  else if x =? 1 then 0
  else log_finite x.

End Libm.

(** ** np.gradient(f, x) for one-dimensional [f] with coordinates [x]

    Second-order central differences at the interior samples,
    first-order one-sided differences at the two ends
    ([edge_order = 1]).  When all spacings are equal as floats NumPy
    reduces to the scalar-spacing formula. *)

Definition fnth (l : list float) (i : nat) : float := nth i l 0.

Definition gradient_uniform (f : list float) (h : float) (i : nat) : float :=
  let n := length f in
  if (i =? 0)%nat then (fnth f 1 - fnth f 0) / h
  else if (i =? n - 1)%nat then (fnth f (n - 1) - fnth f (n - 2)) / h
  else (fnth f (i + 1) - fnth f (i - 1)) / (2 * h).

Definition gradient_nonuniform (f dxs : list float) (i : nat) : float :=
  let n := length f in
  if (i =? 0)%nat then (fnth f 1 - fnth f 0) / fnth dxs 0
  else if (i =? n - 1)%nat then
    (fnth f (n - 1) - fnth f (n - 2)) / fnth dxs (n - 2)
  else
    let dx1 := fnth dxs (i - 1) in
    let dx2 := fnth dxs i in
    let a := - dx2 / (dx1 * (dx1 + dx2)) in
    let b := (dx2 - dx1) / (dx1 * dx2) in
    let c := dx1 / (dx2 * (dx1 + dx2)) in
    a * fnth f (i - 1) + b * fnth f i + c * fnth f (i + 1).

Definition uniform_spacing (dxs : list float) : bool :=
  forallb (fun d => d =? fnth dxs 0) dxs.

Definition gradient (f x : list float) : result (list float) :=
  if negb (length x =? length f)%nat then Raise ValueError
  else
    let dxs := diff x in
    match dxs with
    | [] => Raise IndexError
    | d0 :: _ =>
        Ok (map (if uniform_spacing dxs then gradient_uniform f d0
                 else gradient_nonuniform f dxs)
                (seq 0 (length f)))
    end.

(** ** scipy.interpolate.RegularGridInterpolator, method "linear"

    The grid along each axis is [np.arange(n)].  Construction checks
    that the value array has at least as many axes as there are grid
    axes and that its leading extents equal the grid lengths.  A call
    raises [ValueError] when a requested point lies outside the grid
    ([bounds_error = True]); inside, the value is the multilinear
    combination of the surrounding nodes. *)

Record RegularGridInterpolator : Type := mk_interpolator {
  grid : list nat;
  values : ndarray float
}.

Definition new_interpolator (points : list nat) (vals : ndarray float)
  : result RegularGridInterpolator :=
  if (ndim vals <? length points)%nat then Raise ValueError
  else if shape_eqb (firstn (length points) (shape vals)) points
  then Ok (mk_interpolator points vals)
  else Raise ValueError.

(** Python indexing: a negative index counts from the end. *)
Definition py_index (n : nat) (i : Z) : nat :=
  Z.to_nat (if (i <? 0)%Z then i + Z.of_nat n else i).

(** [find_interval_ascending] on the axis [np.arange(n)]: the cell [i]
    with [i <= x < i + 1], the last cell being closed on the right;
    below the axis the first cell, above it the last one, and -1 for
    NaN. *)
Definition find_interval_ascending (n : nat) (x : float) : Z :=
  let b := float_of_nat (n - 1) in
  if negb ((0 <=? x) && (x <=? b)) then
    if x <? 0 then 0%Z
    else if b <? x then (Z.of_nat n - 2)%Z
    else (-1)%Z
  else if x =? b then (Z.of_nat n - 2)%Z
  else
    (Z.of_nat (length (filter (fun k => (float_of_nat k <=? x)%float)
                               (seq 0 n))) - 1)%Z.

(** [find_indices] (SciPy 1.10 and later): the cell holding [x] and the
    normalised distance to its lower node.  An axis of one node gives
    index -1 and distance 0, so that both nodes read are node 0. *)
Definition find_indices (n : nat) (x : float) : Z * float :=
  if (n =? 1)%nat then ((-1)%Z, 0)
  else
    let i := find_interval_ascending n x in
    if x =? x then
      let lo := float_of_nat (py_index n i) in
      let hi := float_of_nat (py_index n (i + 1)) in
      (i, (x - lo) / (hi - lo))
    else (i, nan).

Definition getitem3 (v : ndarray float) (i j k : Z) : float :=
  match shape v with
  | [nx; ny; nz] =>
      fnth (flat v)
        ((py_index nx i * ny + py_index ny j) * nz + py_index nz k)
  | _ => 0
  end.

Definition edge_weight (e i : Z) (y : float) : float :=
  if (e =? i)%Z then 1 - y else y.

Definition evaluate_linear (v : ndarray float)
  (ix iy iz : Z * float) : float :=
  let '(i, yi) := ix in
  let '(j, yj) := iy in
  let '(k, yk) := iz in
  fold_left
    (fun acc e =>
       let '(ei, ej, ek) := e in
       let weight :=
         1 * edge_weight ei i yi * edge_weight ej j yj * edge_weight ek k yk in
       acc + getitem3 v ei ej ek * weight)
    (list_prod (list_prod [i; (i + 1)%Z] [j; (j + 1)%Z]) [k; (k + 1)%Z])
    0.

Definition in_bounds (n : nat) (p : list float) : bool :=
  forallb (fun c => 0 <=? c) p && forallb (fun c => c <=? float_of_nat (n - 1)) p.

(** Calling the interpolator on the points [(x, y, z_i)]. *)
Definition call_interpolator (itp : RegularGridInterpolator)
  (xs ys zs : list float) : result (list float) :=
  match grid itp with
  | [nx; ny; nz] =>
      if (nx =? 0)%nat || (ny =? 0)%nat || (nz =? 0)%nat then Raise IndexError
      else if in_bounds nx xs && in_bounds ny ys && in_bounds nz zs then
        Ok (map (fun p : float * float * float =>
                   let '(x, y, z) := p in
                   evaluate_linear (values itp) (find_indices nx x)
                     (find_indices ny y) (find_indices nz z))
                (combine (combine xs ys) zs))
      else Raise ValueError
  | _ => Raise ValueError
  end.

(** ** decay_index.py *)

Record field_dict : Type := mk_field {
  bx : ndarray float;
  by_ : ndarray float;
  bz : ndarray float;
  bh : ndarray float
}.

Record DecayIndexResult : Type := mk_result {
  decay_index : list float;
  critical_height : float;
  critical_height_range : float * float
}.

Module DecayIndexCalculator.

Record t : Type := mk {
  field : field_dict;
  dx : float;
  bh_interpolator : RegularGridInterpolator
}.

(** [_setup_interpolators]: [nx, ny, nz = self.field['bx'].shape]
    raises unless [bx] has exactly three axes; the interpolator is
    then built over [bh]. *)
Definition _setup_interpolators (fld : field_dict)
  : result RegularGridInterpolator :=
  match shape (bx fld) with
  | [nx; ny; nz] => new_interpolator [nx; ny; nz] (bh fld)
  | _ => Raise ValueError
  end.

Definition init (magnetic_field_3d : field_dict) (grid_spacing : float)
  : result t :=
  itp <- _setup_interpolators magnetic_field_3d ;;
  Ok (mk magnetic_field_3d grid_spacing itp).

(** [if z_range is None: z_range = (0, self.field['bh'].shape[2]-1)] *)
Definition z_range_or_default (self : t) (z_range : option (float * float))
  : float * float :=
  match z_range with
  | Some r => r
  | None =>
      (0, float_of_Z (Z.of_nat (nth 2 (shape (bh (field self))) 0%nat) - 1))
  end.

(** The sampled heights: [np.linspace(z_range[0], z_range[1], n_points)]. *)
Definition heights (self : t) (z_range : option (float * float))
  (n_points : nat) : list float :=
  let zr := z_range_or_default self z_range in
  linspace (fst zr) (snd zr) n_points.

Definition calculate_decay_index (self : t) (x y : float)
  (z_range : option (float * float)) (n_points : Z)
  : result (list float) :=
  if (n_points <? 0)%Z then Raise ValueError
  else
    let z := heights self z_range (Z.to_nat n_points) in
    mag <- call_interpolator (bh_interpolator self)
             (map (fun _ => x) z) (map (fun _ => y) z) z ;;
    if negb (ndim (values (bh_interpolator self)) =? 3)%nat
    then Raise TypeError
    else
      d_ln_bh <- gradient (map Libm.log mag) z ;;
      Ok (map (fun p : float * float => - fst p * snd p) (combine z d_ln_bh)).

(** [np.where(cond)[0]]: the indices at which the condition holds. *)
Definition where_ (cond : float -> bool) (a : list float) : list nat :=
  filter (fun i => cond (fnth a i)) (seq 0 (length a)).

Definition in_band (critical_index uncertainty d : float) : bool :=
  geb d (critical_index - uncertainty) && (d <=? critical_index + uncertainty).

Definition find_critical_height (self : t) (x y : float)
  (critical_index uncertainty : float) : result DecayIndexResult :=
  decay_index <- calculate_decay_index self x y None 100 ;;
  let z := map (fun i => float_of_nat i * dx self)
               (seq 0 (length decay_index)) in
  let cross_points := where_ (in_band critical_index uncertainty) decay_index in
  match cross_points with
  | [] => Ok (mk_result decay_index infinity (infinity, infinity))
  | first :: _ =>
      let critical_height := fnth z first in
      let height_range :=
        (fnth z first - uncertainty * dx self,
         fnth z (last cross_points 0%nat) + uncertainty * dx self) in
      Ok (mk_result decay_index critical_height height_range)
  end.

End DecayIndexCalculator.

(** ** pil_detection.py

    [np.zeros(shape)] with ones written at the indices selected by
    [np.where] is a 0/1 mask; masks are modelled as boolean arrays
    (1.0 is [true]).  [None] attributes are [None] options. *)

(** Elementwise [&] of two masks of one shape. *)
Definition logical_and (a b : ndarray bool) : result (ndarray bool) :=
  if shape_eqb (shape a) (shape b)
  then Ok (mk_ndarray (shape a)
             (map (fun p : bool * bool => fst p && snd p)
                  (combine (flat a) (flat b))))
  else Raise ValueError.

Definition count_true (a : ndarray bool) : nat :=
  length (filter (fun b : bool => b) (flat a)).

Definition bnth (a : ndarray bool) (i : nat) : bool := nth i (flat a) false.

Module PILDetector.

Record t : Type := mk {
  data : ndarray float;
  pos_map : option (ndarray bool);
  neg_map : option (ndarray bool);
  pil_map : option (ndarray bool)
}.

Definition init (magnetogram_data : ndarray float) : t :=
  mk magnetogram_data None None None.

Section Methods.

(** [ndimage.gaussian_filter(data, sigma=sigma, truncate=3)] *)
Variable gaussian_filter : ndarray float -> float -> ndarray float.
(** [skimage.feature.canny(image, sigma=sigma)] on a 2-D image *)
Variable canny : ndarray bool -> float -> ndarray bool.
(** [skimage.morphology.dilation(edges, square(size))] *)
Variable dilation : ndarray bool -> nat -> ndarray bool.
(** [skimage.morphology.thin(image)] *)
Variable thin : ndarray bool -> ndarray bool.

(** The array that is thresholded: the magnetogram, smoothed on request. *)
Definition thresholded (self : t) (apply_gaussian : bool) (sigma : float)
  : ndarray float :=
  if apply_gaussian then gaussian_filter (data self) sigma else data self.

(** The method has no [raise], no warning and no log call: its only
    effects are the writes to [pos_map] and [neg_map]. *)
Definition identify_polarity_regions (self : t)
  (pos_thresh neg_thresh : float) (apply_gaussian : bool) (sigma : float)
  : result t :=
  let data' := thresholded self apply_gaussian sigma in
  let pos_map' := amap (fun d => geb d pos_thresh) data' in
  let neg_map' := amap (fun d => d <=? neg_thresh) data' in
  Ok (mk (data self) (Some pos_map') (Some neg_map') (pil_map self)).

(** [canny] first reads [image.dtype], which [None] does not have; its
    [check_nD(image, 2)] then rejects an empty array and an array that
    is not two-dimensional, in this order. *)
Definition canny_checked (image : option (ndarray bool)) (sigma : float)
  : result (ndarray bool) :=
  match image with
  | None => Raise AttributeError
  | Some im =>
      if (size im =? 0)%nat then Raise ValueError
      else if (ndim im =? 2)%nat then Ok (canny im sigma)
      else Raise ValueError
  end.

Definition detect_edges (self : t) (sigma : float)
  : result (ndarray bool * ndarray bool) :=
  pos_edges <- canny_checked (pos_map self) sigma ;;
  neg_edges <- canny_checked (neg_map self) sigma ;;
  Ok (pos_edges, neg_edges).

Definition dilate_edges (edges : ndarray bool) (size : nat) : ndarray bool :=
  dilation edges size.

(** Returns the PIL map and the detector with [pil_map] updated. *)
Definition extract_pil (self : t) (thinning : bool)
  : result (ndarray bool * t) :=
  edges <- detect_edges self 1 ;;
  let dil_pos := dilate_edges (fst edges) 6 in
  let dil_neg := dilate_edges (snd edges) 6 in
  let pil_mask := amap (fun d => negb (PrimFloat.is_nan d)) (data self) in
  both <- logical_and dil_pos dil_neg ;;
  pil_map' <- logical_and both pil_mask ;;
  let pil_map' := if thinning then thin pil_map' else pil_map' in
  Ok (pil_map', mk (data self) (pos_map self) (neg_map self) (Some pil_map')).

End Methods.

End PILDetector.

(** ** Vocabulary of the critical-height properties *)

(** Height given to sample [i]: entry [i] of
    [np.arange(len(decay_index)) * self.dx]. *)
Definition sample_height (self : DecayIndexCalculator.t) (i : nat) : float :=
  float_of_nat i * DecayIndexCalculator.dx self.

(** Sample [i] of the profile lies in
    [critical_index - uncertainty, critical_index + uncertainty]. *)
Definition qualifies (critical_index uncertainty : float)
  (profile : list float) (i : nat) : Prop :=
  (i < length profile)%nat /\
  DecayIndexCalculator.in_band critical_index uncertainty (fnth profile i) = true.

Definition first_qualifying (critical_index uncertainty : float)
  (profile : list float) (i : nat) : Prop :=
  qualifies critical_index uncertainty profile i /\
  forall j, (j < i)%nat ->
    DecayIndexCalculator.in_band critical_index uncertainty (fnth profile j) = false.

Definition last_qualifying (critical_index uncertainty : float)
  (profile : list float) (k : nat) : Prop :=
  qualifies critical_index uncertainty profile k /\
  forall j, (k < j < length profile)%nat ->
    DecayIndexCalculator.in_band critical_index uncertainty (fnth profile j) = false.

(** ** Vocabulary of the decay-index properties *)

(** The interpolated horizontal magnitude at (x, y, z). *)
Definition interpolant (self : DecayIndexCalculator.t) (x y z : float) : float :=
  match grid (DecayIndexCalculator.bh_interpolator self) with
  | [nx; ny; nz] =>
      evaluate_linear (values (DecayIndexCalculator.bh_interpolator self))
        (find_indices nx x) (find_indices ny y) (find_indices nz z)
  | _ => 0
  end.

Definition log_magnitude (self : DecayIndexCalculator.t) (x y z : float)
  : float :=
  Libm.log (interpolant self x y z).

(** Every sample point (x, y, z_i) lies inside the grid. *)
Definition samples_in_grid (self : DecayIndexCalculator.t) (x y : float)
  (zs : list float) : bool :=
  match grid (DecayIndexCalculator.bh_interpolator self) with
  | [nx; ny; nz] =>
      negb ((nx =? 0)%nat || (ny =? 0)%nat || (nz =? 0)%nat) &&
      (in_bounds nx (map (fun _ => x) zs) &&
       in_bounds ny (map (fun _ => y) zs) && in_bounds nz zs)
  | _ => false
  end.

(** Distance from sample [i] to the next one. *)
Definition spacing (z : nat -> float) (i : nat) : float := z (i + 1)%nat - z i.

(** All [n - 1] spacings are the same binary64 number. *)
Definition evenly (z : nat -> float) (n : nat) : bool :=
  forallb (fun i => spacing z i =? spacing z 0) (seq 0 (n - 1)).

(** Derivative of [L] with respect to [z] at sample [i] of [n]: the
    one-sided difference quotient at the two ends, the central
    difference in between (its three-point form when the spacings
    differ). *)
Definition difference_quotient (L z : nat -> float) (n i : nat) : float :=
  if evenly z n then
    let h := spacing z 0 in
    if (i =? 0)%nat then (L 1%nat - L 0%nat) / h
    else if (i =? n - 1)%nat then (L (n - 1)%nat - L (n - 2)%nat) / h
    else (L (i + 1)%nat - L (i - 1)%nat) / (2 * h)
  else
    if (i =? 0)%nat then (L 1%nat - L 0%nat) / spacing z 0
    else if (i =? n - 1)%nat then
      (L (n - 1)%nat - L (n - 2)%nat) / spacing z (n - 2)
    else
      let hs := spacing z (i - 1) in
      let hd := spacing z i in
      - hd / (hs * (hs + hd)) * L (i - 1)%nat
      + (hd - hs) / (hs * hd) * L i
      + hs / (hd * (hs + hd)) * L (i + 1)%nat.

(** NaN or an infinity. *)
Definition nonfinite (x : float) : Prop := PrimFloat.is_finite x = false.

Definition SFnonfinite (f : spec_float) : Prop :=
  match f with
  | S754_nan | S754_infinity _ => True
  | _ => False
  end.

(** Samples [i] and [j] are next to each other. *)
Definition adjacent (i j : nat) : Prop := (i + 1 = j \/ i = j + 1)%nat.

(** ** The scenarios used below *)

(** A column whose horizontal magnitude is 100 exp(-z/5) at the grid
    heights z = 0..49 (the nearest binary64 values). *)
Definition exp_column : list float :=
  [0x1.9p+6; 0x1.477e077417c0ep+6; 0x1.0c20c5d09683ap+6; 0x1.b70c9f81a67a3p+5;
   0x1.67769264d7382p+5; 0x1.264db5a531ae4p+5; 0x1.e1e92631ebd7cp+4;
   0x1.8a8e1dce63588p+4; 0x1.4308d053455p+4; 0x1.087a6cb39aff8p+4;
   0x1.b112a9fdb3acfp+3; 0x1.6291f2843f253p+3; 0x1.224c25b7b9dd1p+3;
   0x1.db59d49eafc1ep+2; 0x1.852f34e413591p+2; 0x1.3ea3220017a09p+2;
   0x1.04e0cb84ffc4fp+2; 0x1.ab2d87f0024cfp+1; 0x1.5dbe5fabce1d1p+1;
   0x1.1e588b936ce89p+1; 0x1.d4e15efb3ef3dp+0; 0x1.7fe30322dc597p+0;
   0x1.3a4cc6588e339p+0; 0x1.0153b5f2cbe7dp+0; 0x1.a55cf0c5fa8c9p-1;
   0x1.58fb9e70a6934p-1; 0x1.1a72b692b05e5p-1; 0x1.ce7f759f4da52p-2;
   0x1.7aa94752f1954p-2; 0x1.360587f74ba58p-2; 0x1.fba6008aefc8ep-3;
   0x1.9fa09ce9e99adp-3; 0x1.54497436f86b5p-3; 0x1.169a76b96efb6p-3;
   0x1.c833c9f825458p-4; 0x1.7581c11fca478p-4; 0x1.31cd323104535p-4;
   0x1.f4bcfebba6e1cp-5; 0x1.99f845bf90612p-5; 0x1.4fa7a72f2f753p-5;
   0x1.12cf9cb2c9effp-5; 0x1.c1fe0e84dd2fp-6; 0x1.706c311509b88p-6;
   0x1.2da39111f5f7ap-6; 0x1.edec1165e53d9p-7; 0x1.9463a5a0be3cdp-7;
   0x1.4b15fe532bb96p-7; 0x1.0f11f9ced2312p-7; 0x1.bbddf6d2a086ap-8;
   0x1.6b68589b72102p-8].

(** A volume of extent 2 x 2 x nz carrying the same column at every
    horizontal node. *)
Definition column_volume (col : list float) : ndarray float :=
  mk_ndarray [2; 2; length col]%nat (col ++ col ++ col ++ col).

(** bx carries the column, by and bz vanish, so bh = sqrt(bx^2 + by^2)
    is the column itself wherever it is non-negative. *)
Definition column_field (col : list float) : field_dict :=
  let zeros := column_volume (map (fun _ => 0) col) in
  mk_field (column_volume col) zeros zeros (column_volume col).

Definition column_calculator (col : list float) (grid_spacing : float)
  : DecayIndexCalculator.t :=
  DecayIndexCalculator.mk (column_field col) grid_spacing
    (mk_interpolator [2; 2; length col]%nat (column_volume col)).

Definition profile_of (r : result (list float)) : list float :=
  match r with
  | Ok p => p
  | Raise _ => []
  end.

Definition exp_profile : list float :=
  Eval vm_compute in
    profile_of (DecayIndexCalculator.calculate_decay_index
                  (column_calculator exp_column 1) 0 0 None 100).

Definition flat_profile : list float :=
  Eval vm_compute in
    profile_of (DecayIndexCalculator.calculate_decay_index
                  (column_calculator [1; 1; 1] 0.72) 1 0 None 100).

(** A column whose magnitude vanishes at grid height 2. *)
Definition notch_column : list float := [1; 1; 0; 1; 1].

(** A column whose magnitude is negative at height 2. *)
Definition dip_column : list float := [1; 1; -1; 1; 1].

(** A field whose bh has a fourth axis: two values at every node. *)
Definition stacked_field : field_dict :=
  let zeros := column_volume (map (fun _ => 0) notch_column) in
  mk_field (column_volume notch_column) zeros zeros
    (mk_ndarray [2; 2; 5; 2]%nat
       (flat_map (fun v => [v; v]) (flat (column_volume notch_column)))).

Definition stacked_calculator : DecayIndexCalculator.t :=
  DecayIndexCalculator.mk stacked_field 1
    (mk_interpolator [2; 2; 5]%nat (bh stacked_field)).

(** A field whose by and bz do not have the shape of bx and bh. *)
Definition mismatched_field : field_dict :=
  mk_field (mk_ndarray [2; 2; 2]%nat [3; 3; 3; 3; 3; 3; 3; 3])
           (mk_ndarray [1; 1; 1]%nat [4])
           (mk_ndarray [2; 2; 3]%nat [0; 0; 0; 0; 0; 0; 0; 0; 0; 0; 0; 0])
           (mk_ndarray [2; 2; 2]%nat [3; 3; 3; 3; 3; 3; 3; 3]).

(** What the constructor looks at: bx has three axes and the leading
    three extents of bh are the extents of bx. *)
Definition bh_fits_bx (fld : field_dict) : Prop :=
  ndim (bx fld) = 3%nat /\ firstn 3 (shape (bh fld)) = shape (bx fld).

(** ** Concrete image operators for the examples

    Small operators that meet the contracts assumed below of the
    scikit-image routines (same shape out as in; thinning only removes
    pixels).  They instantiate the examples and are not models of
    [canny], [dilation] or [thin]. *)

Module Reference.

Definition width (a : ndarray bool) : nat := nth 1 (shape a) 1%nat.
Definition height (a : ndarray bool) : nat := nth 0 (shape a) 0%nat.

Definition inside (a : ndarray bool) (r c : Z) : bool :=
  (0 <=? r)%Z && (r <? Z.of_nat (height a))%Z &&
  (0 <=? c)%Z && (c <? Z.of_nat (width a))%Z.

Definition pixel (a : ndarray bool) (r c : Z) : bool :=
  inside a r c && nth (Z.to_nat r * width a + Z.to_nat c) (flat a) false.

Definition pointwise (a : ndarray bool) (f : Z -> Z -> bool) : ndarray bool :=
  mk_ndarray (shape a)
    (map (fun i => f (Z.of_nat (i / width a)) (Z.of_nat (i mod width a)))
         (seq 0 (length (flat a)))).

Definition offsets (lo n : Z) : list Z :=
  map (fun k => (lo + Z.of_nat k)%Z) (seq 0 (Z.to_nat n)).

Definition window (lo n : Z) : list (Z * Z) :=
  list_prod (offsets lo n) (offsets lo n).

(** Set pixels that touch an unset pixel of the image. *)
Definition edges (a : ndarray bool) (sigma : float) : ndarray bool :=
  pointwise a (fun r c =>
    pixel a r c &&
    existsb (fun d : Z * Z =>
               inside a (r + fst d) (c + snd d) &&
               negb (pixel a (r + fst d) (c + snd d)))
            (window (-1) 3)).

(** Dilation by a square window of side [size]. *)
Definition dilate (a : ndarray bool) (size : nat) : ndarray bool :=
  pointwise a (fun r c =>
    existsb (fun d : Z * Z => pixel a (r + fst d) (c + snd d))
            (window (- Z.of_nat (size / 2)) (Z.of_nat size))).

(** Keep the leftmost pixel of every horizontal run. *)
Definition thin_rows (a : ndarray bool) : ndarray bool :=
  mk_ndarray (shape a)
    (map (fun i =>
            nth i (flat a) false &&
            negb (pixel a (Z.of_nat (i / width a))
                          (Z.of_nat (i mod width a) - 1)))
         (seq 0 (length (flat a)))).

Definition no_smoothing (a : ndarray float) (sigma : float) : ndarray float := a.

End Reference.

(** A 4 x 4 magnetogram: positive on the left, negative on the right,
    one pixel outside the field of view. *)
Definition split_magnetogram : ndarray float :=
  mk_ndarray [4; 4]%nat
    [200; 200; -200; -200;
     200; 200; -200; -200;
     200; nan; -200; -200;
     200; 150; -120; -200].

(** Magnetograms [canny] does not take: an image without pixels and a
    single scan line. *)
Definition empty_magnetogram : ndarray float := mk_ndarray [0; 5]%nat [].

Definition line_magnetogram : ndarray float :=
  mk_ndarray [4]%nat [200; 150; -120; -200].

(** The detector after [identify_polarity_regions] at +-100 Gauss. *)
Definition split_detector : PILDetector.t :=
  PILDetector.mk split_magnetogram
    (Some (amap (fun d => geb d 100) split_magnetogram))
    (Some (amap (fun d => d <=? -100) split_magnetogram))
    None.

Definition map_of (r : result (ndarray bool * PILDetector.t)) : ndarray bool :=
  match r with
  | Ok (m, _) => m
  | Raise _ => mk_ndarray [] []
  end.

Definition split_pil : ndarray bool :=
  Eval vm_compute in
    map_of (PILDetector.extract_pil Reference.edges Reference.dilate
              Reference.thin_rows split_detector true).

(** Every pixel inside the field of view. *)
Definition split_valid : ndarray bool :=
  mk_ndarray [4; 4]%nat
    [true; true; true; true;
     true; true; true; true;
     true; false; true; true;
     true; true; true; true].

(** ** Failures outside the built-in exceptions, and calls that fail
    after they have written to the object *)

Inductive failure : Set :=
| Builtin (e : exn)
| CvError.  (* cv2.error *)

Coercion Builtin : exn >-> failure.

Inductive outcome (A : Type) : Type :=
| Returned (a : A)
| Failed (f : failure).

Arguments Returned {A} a.
Arguments Failed {A} f.

Definition lift {A : Type} (r : result A) : outcome A :=
  match r with
  | Ok a => Returned a
  | Raise e => Failed (Builtin e)
  end.

(** ** pil_detection.py: find_flare_pil *)

(** A contour of [cv2.findContours]: its points as (x, y), column first. *)
Definition contour : Type := list (nat * nat).

(** Python's [max(items, key=key)]: the first item whose key is not
    exceeded; the keys are computed in order, one per item. *)
Fixpoint py_max_from {A : Type} (key : A -> result nat)
  (best : A) (best_key : nat) (rest : list A) : result A :=
  match rest with
  | [] => Ok best
  | a :: rest' =>
      k <- key a ;;
      if (best_key <? k)%nat then py_max_from key a k rest'
      else py_max_from key best best_key rest'
  end.

Definition py_max {A : Type} (key : A -> result nat) (items : list A)
  : result A :=
  match items with
  | [] => Raise ValueError
  | a :: rest => k <- key a ;; py_max_from key a k rest
  end.

Module FlarePIL.

Section Methods.

Variable canny : ndarray bool -> float -> ndarray bool.
Variable dilation : ndarray bool -> nat -> ndarray bool.
Variable thin : ndarray bool -> ndarray bool.
(** [cv2.findContours(image, cv2.RETR_EXTERNAL, cv2.CHAIN_APPROX_NONE)[0]],
    or OpenCV's refusal of the image *)
Variable find_contours : ndarray bool -> outcome (list contour).
(** [np.sum(mask * ribbon_map)] when the two shapes differ (NumPy
    broadcasts or raises) *)
Variable sum_broadcast : ndarray bool -> ndarray bool -> result nat.

Definition zeros_like (a : ndarray bool) : ndarray bool :=
  mk_ndarray (shape a) (map (fun _ => false) (flat a)).

(** [m = np.zeros_like(self.pil_map); m[c[:,0,1], c[:,0,0]] = 1]: the
    mask of shape [s] set at the points of the contour, rows indexed by
    y and columns by x; fewer than two axes, or an index past an
    extent, raise. *)
Definition paint (s : list nat) (c : contour) : result (ndarray bool) :=
  match s with
  | h :: w :: rest =>
      let row := fold_right Nat.mul 1%nat rest in
      if forallb (fun p : nat * nat => (fst p <? w)%nat && (snd p <? h)%nat) c
      then Ok (mk_ndarray s
                 (map (fun i =>
                         existsb (fun p : nat * nat =>
                                    (snd p * w + fst p =? i / row)%nat) c)
                      (seq 0 (h * w * row))))
      else Raise IndexError
  | _ => Raise IndexError
  end.

(** [count_ribbon_overlap]: the number of contour pixels on the ribbon. *)
Definition count_ribbon_overlap (pil ribbon_map : ndarray bool) (c : contour)
  : result nat :=
  mask <- paint (shape pil) c ;;
  if shape_eqb (shape mask) (shape ribbon_map)
  then both <- logical_and mask ribbon_map ;; Ok (count_true both)
  else sum_broadcast mask ribbon_map.

(** [thin] accepts two-dimensional images only. *)
Definition thin_checked (image : ndarray bool) : result (ndarray bool) :=
  if (ndim image =? 2)%nat then Ok (thin image) else Raise ValueError.

(** [if self.pil_map is None: self.extract_pil()] *)
Definition ensure_pil (self : PILDetector.t)
  : result (ndarray bool * PILDetector.t) :=
  match PILDetector.pil_map self with
  | Some m => Ok (m, self)
  | None => PILDetector.extract_pil canny dilation thin self true
  end.

(** The map returned, or the failure, and the detector afterwards:
    [extract_pil] may have stored the PIL map before a later step
    fails. *)
Definition find_flare_pil (self : PILDetector.t) (ribbon_map : ndarray bool)
  : outcome (ndarray bool) * PILDetector.t :=
  match ensure_pil self with
  | Raise e => (Failed (Builtin e), self)
  | Ok (pil, self1) =>
      match find_contours pil with
      | Failed f => (Failed f, self1)
      | Returned [] => (Returned (zeros_like pil), self1)
      | Returned contours =>
          (lift (fpil_contour <-
                   py_max (count_ribbon_overlap pil ribbon_map) contours ;;
                 fpil_map <- paint (shape pil) fpil_contour ;;
                 thin_checked fpil_map),
           self1)
      end
  end.

End Methods.

End FlarePIL.

(** ** magnetic_field.py

    The files are arguments: the lines of the grid file, the array
    [np.loadtxt] read from the boundary file and the buffer
    [np.fromfile] read from the field file.  Grid extents are natural
    numbers. *)

(** [a[start:stop:step]] along the first axis, for a positive step. *)
Definition slice_len (start stop step len : nat) : nat :=
  if (start <? Nat.min stop len)%nat
  then ((Nat.min stop len - start - 1) / step + 1)%nat
  else 0%nat.

Definition getslice (a : ndarray float) (start stop step : nat)
  : result (ndarray float) :=
  match shape a with
  | [] => Raise IndexError
  | len :: rest =>
      let row := fold_right Nat.mul 1%nat rest in
      let idx := map (fun k => (start + k * step)%nat)
                     (seq 0 (slice_len start stop step len)) in
      Ok (mk_ndarray (length idx :: rest)
            (flat_map (fun i => firstn row (skipn (i * row) (flat a))) idx))
  end.

(** [a.reshape(s)]: the same entries under another shape of the same size. *)
Definition reshape (a : ndarray float) (s : list nat) : result (ndarray float) :=
  if (length (flat a) =? fold_right Nat.mul 1%nat s)%nat
  then Ok (mk_ndarray s (flat a))
  else Raise ValueError.

Definition getitem {A : Type} (l : list A) (i : nat) : result A :=
  match nth_error l i with
  | Some a => Ok a
  | None => Raise IndexError
  end.

Module MagneticField.

Record GridConfig : Type := mk_config {
  nx : nat;
  ny : nat;
  nz : nat;
  dx : float
}.

Record t : Type := mk {
  config : option GridConfig;
  bx : option (ndarray float);
  by_ : option (ndarray float);
  bz : option (ndarray float)
}.

Definition init : t := mk None None None None.

Section Methods.

(** A line of the grid file, and Python's [int] on it. *)
Variable line : Type.
Variable int : line -> result nat.

Definition _read_grid_config (params : list line) : result GridConfig :=
  nx' <- (s <- getitem params 1 ;; int s) ;;
  ny' <- (s <- getitem params 3 ;; int s) ;;
  nz' <- (s <- getitem params 5 ;; int s) ;;
  Ok (mk_config nx' ny' nz' 7.2e7).

Definition component (boundary_data : ndarray float) (k nxny : nat)
  (cfg : GridConfig) : result (ndarray float) :=
  s <- getslice boundary_data k (3 * nxny) 3 ;;
  reshape s [nx cfg; ny cfg].

(** The three components, or the exception, and the object afterwards:
    [self.config] is assigned before the boundary file is read. *)
Definition load_boundary_field (self : t) (params : list line)
  (boundary_data : ndarray float)
  : result (ndarray float * ndarray float * ndarray float) * t :=
  match _read_grid_config params with
  | Raise e => (Raise e, self)
  | Ok cfg =>
      let self1 := mk (Some cfg) (bx self) (by_ self) (bz self) in
      let nxny := (nx cfg * ny cfg)%nat in
      match (bx' <- component boundary_data 0 nxny cfg ;;
             by' <- component boundary_data 1 nxny cfg ;;
             bz' <- component boundary_data 2 nxny cfg ;;
             Ok (bx', by', bz')) with
      | Raise e => (Raise e, self1)
      | Ok (bx', by', bz') =>
          (Ok (bx', by', bz'), mk (Some cfg) (Some bx') (Some by') (Some bz'))
      end
  end.

End Methods.

(** [np.sqrt(bx_3d**2 + by_3d**2)], entry by entry. *)
Definition horizontal_strength (bx_3d by_3d : ndarray float) : ndarray float :=
  mk_ndarray (shape bx_3d)
    (map (fun p : float * float =>
            PrimFloat.sqrt (fst p * fst p + snd p * snd p))
         (combine (flat bx_3d) (flat by_3d))).

Definition block (field_data : list float) (k n : nat) (s : list nat)
  : result (ndarray float) :=
  reshape (mk_ndarray [length (firstn n (skipn (k * n) field_data))]
             (firstn n (skipn (k * n) field_data))) s.

(** Reads [self.config] only; the object is not written. *)
Definition load_3d_field (self : t) (field_data : list float)
  : outcome field_dict :=
  match config self with
  | None => Failed AttributeError
  | Some cfg =>
      let s := [nx cfg; ny cfg; nz cfg] in
      let nxnynz := (nx cfg * ny cfg * nz cfg)%nat in
      lift (bx_3d <- block field_data 0 nxnynz s ;;
            by_3d <- block field_data 1 nxnynz s ;;
            bz_3d <- block field_data 2 nxnynz s ;;
            Ok (mk_field bx_3d by_3d bz_3d (horizontal_strength bx_3d by_3d)))
  end.

End MagneticField.

(** ** Vocabulary of the further properties *)

(** The query coordinate [c] lies on the axis of [n] nodes. *)
Definition on_axis (n : nat) (c : float) : bool :=
  (0 <=? c) && (c <=? float_of_nat (n - 1)).

(** No pixel of the mask is set. *)
Definition blank (m : ndarray bool) : Prop := forall i, bnth m i = false.

(** A magnetogram of one polarity. *)
Definition positive_magnetogram : ndarray float :=
  mk_ndarray [2; 3]%nat [200; 300; 150; 400; 120; 250].

(** The detector on it after [identify_polarity_regions] at +-100
    Gauss, and the same detector with its (empty) PIL map extracted. *)
Definition positive_detector : PILDetector.t :=
  PILDetector.mk positive_magnetogram
    (Some (amap (fun d => geb d 100) positive_magnetogram))
    (Some (amap (fun d => d <=? -100) positive_magnetogram))
    None.

Definition no_pixels : ndarray bool :=
  mk_ndarray [2; 3]%nat [false; false; false; false; false; false].

Definition positive_extracted : PILDetector.t :=
  PILDetector.mk positive_magnetogram (PILDetector.pos_map positive_detector)
    (PILDetector.neg_map positive_detector) (Some no_pixels).

(** A contour finder for the examples: every set pixel is a contour
    of its own.  Like [Reference], it stands in for the library
    routine and is not a model of it. *)
Definition pixel_contours (image : ndarray bool) : outcome (list contour) :=
  Returned
    (map (fun i => [((i mod nth 1 (shape image) 0)%nat,
                     (i / nth 1 (shape image) 0)%nat)])
         (filter (fun i => bnth image i) (seq 0 (length (flat image))))).

Definition no_broadcast (mask ribbon_map : ndarray bool) : result nat :=
  Raise ValueError.

(** The detector of the example with its PIL map extracted. *)
Definition split_extracted : PILDetector.t :=
  PILDetector.mk split_magnetogram (PILDetector.pos_map split_detector)
    (PILDetector.neg_map split_detector) (Some split_pil).

(** A ribbon over the lower half of the 4 x 4 image. *)
Definition lower_ribbon : ndarray bool :=
  mk_ndarray [4; 4]%nat
    [false; false; false; false;
     false; false; false; false;
     true; true; true; true;
     true; true; true; true].

(** Lines of a grid file for the examples: a label, or a number that
    [int] reads. *)
Definition int_of_line (s : option nat) : result nat :=
  match s with
  | Some n => Ok n
  | None => Raise ValueError
  end.

(** A grid of 2 x 2 x 3 cells. *)
Definition grid_lines : list (option nat) :=
  [None; Some 2; None; Some 2; None; Some 3]%nat.

Definition grid_config : MagneticField.GridConfig :=
  MagneticField.mk_config 2 2 3 7.2e7.

(** Twelve boundary values, (bx, by, bz) pixel after pixel. *)
Definition boundary_values : ndarray float :=
  mk_ndarray [12]%nat [1; 2; 3; 4; 5; 6; 7; 8; 9; 10; 11; 12].

(** Thirty-six field values: bx, then by, then bz. *)
Definition field_values : list float :=
  [3; 3; 3; 3; 3; 3; 0; 0; 0; 0; 0; 0;
   4; 4; 4; 4; 4; 4; 0; 0; 0; -1; -1; -1;
   9; 9; 9; 9; 9; 9; 9; 9; 9; 9; 9; 9].

(** The object after the grid file was read. *)
Definition configured : MagneticField.t :=
  MagneticField.mk (Some grid_config) None None None.

(** The flat index of the pixel of a contour point (x, y) in an image
    of shape [s]. *)
Definition pixel_index (s : list nat) (p : nat * nat) : nat :=
  (snd p * nth 1 s 0 + fst p)%nat.

(** * Properties *)

Lemma shape_eqb_eq (s t : list nat) : shape_eqb s t = true <-> s = t.
Proof.
  unfold shape_eqb. destruct (list_eq_dec Nat.eq_dec s t); split;
    intros; congruence.
Qed.

(** ** binary64 facts, from the specification of the primitive operations *)

Module FloatFacts.

Lemma SFcompare_refl (f : spec_float) :
  f <> S754_nan -> SFcompare f f = Some Eq.
Proof.
  destruct f as [s|s| |s m e]; simpl; intros H; try congruence.
  - destruct s; reflexivity.
  - rewrite Z.compare_refl. fold (Pos.compare m m).
    rewrite Pos.compare_refl. destruct s; reflexivity.
Qed.

Lemma is_nan_spec (x : float) :
  PrimFloat.is_nan x = true <-> Prim2SF x = S754_nan.
Proof.
  unfold PrimFloat.is_nan. rewrite FloatAxioms.eqb_spec. unfold SFeqb. split.
  - intros H. destruct (Prim2SF x) eqn:E; try reflexivity;
      rewrite SFcompare_refl in H by discriminate; discriminate.
  - intros ->. reflexivity.
Qed.

(** The order on spec floats is lexicographic on sign, exponent and
    mantissa, hence transitive. *)
Lemma SFleb_trans (a b c : spec_float) :
  SFleb a b = true -> SFleb b c = true -> SFleb a c = true.
Proof.
  unfold SFleb.
  destruct a as [sa|sa| |sa ma ea], b as [sb|sb| |sb mb eb],
    c as [sc|sc| |sc mc ec]; simpl;
    try discriminate; try reflexivity;
    try (destruct sa; simpl; try discriminate; try reflexivity);
    try (destruct sb; simpl; try discriminate; try reflexivity);
    try (destruct sc; simpl; try discriminate; try reflexivity).
  all: fold (Pos.compare ma mb); fold (Pos.compare mb mc);
    fold (Pos.compare ma mc).
  all: destruct (Z.compare_spec ea eb); destruct (Z.compare_spec eb ec);
    destruct (Z.compare_spec ea ec); simpl;
    try discriminate; try reflexivity; try lia.
  all: destruct (Pos.compare_spec ma mb); destruct (Pos.compare_spec mb mc);
    destruct (Pos.compare_spec ma mc); simpl;
    try discriminate; try reflexivity; try lia.
Qed.

Lemma leb_trans (x y z : float) :
  (x <=? y) = true -> (y <=? z) = true -> (x <=? z) = true.
Proof. rewrite !FloatAxioms.leb_spec. apply SFleb_trans. Qed.

Lemma nan_sub_l x y :
  PrimFloat.is_nan x = true -> PrimFloat.is_nan (x - y) = true.
Proof. rewrite !is_nan_spec, FloatAxioms.sub_spec. intros ->. reflexivity. Qed.

Lemma nan_sub_r x y :
  PrimFloat.is_nan y = true -> PrimFloat.is_nan (x - y) = true.
Proof.
  rewrite !is_nan_spec, FloatAxioms.sub_spec. intros ->.
  unfold SF64sub. destruct (Prim2SF x); reflexivity.
Qed.

Lemma nan_add_l x y :
  PrimFloat.is_nan x = true -> PrimFloat.is_nan (x + y) = true.
Proof. rewrite !is_nan_spec, FloatAxioms.add_spec. intros ->. reflexivity. Qed.

Lemma nan_add_r x y :
  PrimFloat.is_nan y = true -> PrimFloat.is_nan (x + y) = true.
Proof.
  rewrite !is_nan_spec, FloatAxioms.add_spec. intros ->.
  unfold SF64add. destruct (Prim2SF x); reflexivity.
Qed.

Lemma nan_mul_l x y :
  PrimFloat.is_nan x = true -> PrimFloat.is_nan (x * y) = true.
Proof. rewrite !is_nan_spec, FloatAxioms.mul_spec. intros ->. reflexivity. Qed.

Lemma nan_mul_r x y :
  PrimFloat.is_nan y = true -> PrimFloat.is_nan (x * y) = true.
Proof.
  rewrite !is_nan_spec, FloatAxioms.mul_spec. intros ->.
  unfold SF64mul. destruct (Prim2SF x); reflexivity.
Qed.

Lemma nan_div_l x y :
  PrimFloat.is_nan x = true -> PrimFloat.is_nan (x / y) = true.
Proof. rewrite !is_nan_spec, FloatAxioms.div_spec. intros ->. reflexivity. Qed.

Lemma ltb_not_nan_l x y : (x <? y) = true -> PrimFloat.is_nan x = false.
Proof.
  rewrite FloatAxioms.ltb_spec. intros H.
  destruct (PrimFloat.is_nan x) eqn:E; [|reflexivity].
  apply is_nan_spec in E. rewrite E in H. discriminate.
Qed.

Lemma eqb_not_nan_l x y : (x =? y) = true -> PrimFloat.is_nan x = false.
Proof.
  rewrite FloatAxioms.eqb_spec. intros H.
  destruct (PrimFloat.is_nan x) eqn:E; [|reflexivity].
  apply is_nan_spec in E. rewrite E in H. discriminate.
Qed.

Lemma ltb_zero_not_eqb x : (x <? 0) = true -> (x =? 0) = false.
Proof.
  rewrite FloatAxioms.ltb_spec, FloatAxioms.eqb_spec.
  unfold SFltb, SFeqb.
  destruct (SFcompare (Prim2SF x) (Prim2SF 0)) as [[]|]; congruence.
Qed.

Lemma nonfinite_spec (x : float) : nonfinite x <-> SFnonfinite (Prim2SF x).
Proof.
  unfold nonfinite, PrimFloat.is_finite, PrimFloat.is_infinity.
  rewrite negb_false_iff, orb_true_iff, is_nan_spec,
    FloatAxioms.eqb_spec, FloatAxioms.abs_spec.
  change (Prim2SF infinity) with (S754_infinity false).
  destruct (Prim2SF x) as [s|s| |s m e]; simpl; unfold SFeqb; simpl;
    split; intros H; try exact I; try (now right); try (now left);
    try (destruct H; discriminate); try contradiction.
Qed.

Ltac nonfinite_cases x y :=
  rewrite !nonfinite_spec;
  destruct (Prim2SF x) as [?|[]| |? ? ?]; destruct (Prim2SF y) as [[]|[]| |[] ? ?];
  simpl; intros H; try contradiction; exact I.

Lemma nonfinite_sub_l x y : nonfinite x -> nonfinite (x - y).
Proof. rewrite (nonfinite_spec (x - y)), FloatAxioms.sub_spec. unfold SF64sub. nonfinite_cases x y. Qed.

Lemma nonfinite_sub_r x y : nonfinite y -> nonfinite (x - y).
Proof. rewrite (nonfinite_spec (x - y)), FloatAxioms.sub_spec. unfold SF64sub. nonfinite_cases y x. Qed.

Lemma nonfinite_add_l x y : nonfinite x -> nonfinite (x + y).
Proof. rewrite (nonfinite_spec (x + y)), FloatAxioms.add_spec. unfold SF64add. nonfinite_cases x y. Qed.

Lemma nonfinite_add_r x y : nonfinite y -> nonfinite (x + y).
Proof. rewrite (nonfinite_spec (x + y)), FloatAxioms.add_spec. unfold SF64add. nonfinite_cases y x. Qed.

Lemma nonfinite_mul_r x y : nonfinite y -> nonfinite (x * y).
Proof. rewrite (nonfinite_spec (x * y)), FloatAxioms.mul_spec. unfold SF64mul. nonfinite_cases y x. Qed.

Lemma nonfinite_div_l x y : nonfinite x -> nonfinite (x / y).
Proof. rewrite (nonfinite_spec (x / y)), FloatAxioms.div_spec. unfold SF64div. nonfinite_cases x y. Qed.

Lemma log_negative (m : float) :
  (m <? 0) = true -> PrimFloat.is_nan (Libm.log m) = true.
Proof.
  intros H. unfold Libm.log.
  rewrite (ltb_not_nan_l _ _ H), (ltb_zero_not_eqb _ H), H. reflexivity.
Qed.

Lemma log_zero (m : float) : (m =? 0) = true -> Libm.log m = neg_infinity.
Proof.
  intros H. unfold Libm.log. rewrite (eqb_not_nan_l _ _ H), H. reflexivity.
Qed.

End FloatFacts.

(** ** Lists: indices selected by a filter over [seq] *)

Lemma filter_nil_iff {A : Type} (f : A -> bool) (l : list A) :
  filter f l = [] <-> forall a, In a l -> f a = false.
Proof.
  induction l as [|a l IH]; simpl.
  - split; [intros _ b [] | reflexivity].
  - destruct (f a) eqn:E; split.
    + discriminate.
    + intros H. specialize (H a (or_introl eq_refl)). congruence.
    + intros H b [<-|Hb]; [assumption | now apply IH].
    + intros H. apply IH. intros b Hb. apply H. now right.
Qed.

Lemma filter_seq_head (f : nat -> bool) (n s i : nat) (r : list nat) :
  filter f (seq s n) = i :: r ->
  (s <= i < s + n)%nat /\ f i = true /\
  forall j, (s <= j < i)%nat -> f j = false.
Proof.
  revert s. induction n as [|n IH]; intros s; simpl; [discriminate|].
  destruct (f s) eqn:E.
  - intros H. injection H as <- _.
    split; [lia | split; [assumption | intros j Hj; lia]].
  - intros H. apply IH in H. destruct H as (Hr & Hi & Hlt).
    split; [lia | split; [assumption |]].
    intros j Hj. destruct (Nat.eq_dec j s) as [->|Hne]; [assumption|].
    apply Hlt. lia.
Qed.

Lemma filter_seq_last (f : nat -> bool) (n s d : nat) :
  filter f (seq s n) <> [] ->
  (s <= last (filter f (seq s n)) d < s + n)%nat /\
  f (last (filter f (seq s n)) d) = true /\
  forall j, (last (filter f (seq s n)) d < j < s + n)%nat -> f j = false.
Proof.
  induction n as [|n IH]; [simpl; congruence|].
  rewrite seq_S, filter_app. simpl.
  destruct (f (s + n)%nat) eqn:E.
  - intros _. rewrite last_last.
    split; [lia | split; [assumption | intros j Hj; lia]].
  - rewrite app_nil_r. intros Hne. specialize (IH Hne).
    destruct IH as (Hr & Hk & Hgt).
    split; [lia | split; [assumption |]].
    intros j Hj. destruct (Nat.eq_dec j (s + n)) as [->|Hn]; [assumption|].
    apply Hgt. lia.
Qed.

Lemma fnth_map_seq (g : nat -> float) (n i : nat) :
  (i < n)%nat -> fnth (map g (seq 0 n)) i = g i.
Proof.
  intros Hi. unfold fnth.
  rewrite (nth_indep _ 0 (g 0%nat)) by (rewrite length_map, length_seq; lia).
  rewrite map_nth, seq_nth by lia. reflexivity.
Qed.

Lemma forallb_fnth (f : float -> bool) (l : list float) :
  forallb f l = true -> forall i, (i < length l)%nat -> f (fnth l i) = true.
Proof.
  intros H i Hi. rewrite forallb_forall in H. apply H. now apply nth_In.
Qed.

(** ** find_critical_height *)

Section CriticalHeight.

Import DecayIndexCalculator.

Variable self : DecayIndexCalculator.t.
Variables x y critical_index uncertainty : float.
Variable profile : list float.
Hypothesis profile_computed :
  calculate_decay_index self x y None 100 = Ok profile.

Let band := in_band critical_index uncertainty.

Lemma find_critical_height_unfold :
  find_critical_height self x y critical_index uncertainty =
  match where_ band profile with
  | [] => Ok (mk_result profile infinity (infinity, infinity))
  | first :: _ =>
      Ok (mk_result profile
            (fnth (map (sample_height self) (seq 0 (length profile))) first)
            (fnth (map (sample_height self) (seq 0 (length profile))) first
               - uncertainty * dx self,
             fnth (map (sample_height self) (seq 0 (length profile)))
                  (last (where_ band profile) 0%nat)
               + uncertainty * dx self))
  end.
Proof.
  unfold find_critical_height. rewrite profile_computed. reflexivity.
Qed.

Lemma where_nil_iff :
  where_ band profile = [] <->
  forall i, (i < length profile)%nat -> band (fnth profile i) = false.
Proof.
  unfold where_. rewrite filter_nil_iff. split.
  - intros H i Hi. apply H. apply in_seq. lia.
  - intros H i Hi. apply in_seq in Hi. apply H. lia.
Qed.

(** C4: when no sample of the profile lies in the tolerance band,
    [find_critical_height] returns normally, with critical height
    +infinity and range (+infinity, +infinity). *)
Theorem find_critical_height_no_crossing :
  (forall i, (i < length profile)%nat ->
     in_band critical_index uncertainty (fnth profile i) = false) ->
  find_critical_height self x y critical_index uncertainty =
  Ok (mk_result profile infinity (infinity, infinity)).
Proof.
  intros Hnone. rewrite find_critical_height_unfold.
  apply where_nil_iff in Hnone. rewrite Hnone. reflexivity.
Qed.

(** C5: when some sample lies in the tolerance band, the critical
    height is the height of the first qualifying sample and the range
    runs from that height minus uncertainty * grid_spacing to the
    height of the last qualifying sample plus uncertainty *
    grid_spacing. *)
Theorem find_critical_height_first_crossing :
  (exists j, qualifies critical_index uncertainty profile j) ->
  exists first last,
    first_qualifying critical_index uncertainty profile first /\
    last_qualifying critical_index uncertainty profile last /\
    find_critical_height self x y critical_index uncertainty =
    Ok (mk_result profile
          (sample_height self first)
          (sample_height self first - uncertainty * dx self,
           sample_height self last + uncertainty * dx self)).
Proof.
  intros (j & Hj & Hband).
  assert (Hne : where_ band profile <> []).
  { intros Hnil. rewrite where_nil_iff in Hnil.
    specialize (Hnil j Hj). unfold band in Hnil. congruence. }
  rewrite find_critical_height_unfold.
  pose proof (filter_seq_last (fun i => band (fnth profile i))
                (length profile) 0 0 Hne) as (Hl & Hlb & Hlgt).
  fold (where_ band profile) in Hl, Hlb, Hlgt.
  destruct (where_ band profile) as [|first rest] eqn:Hw; [congruence|].
  apply filter_seq_head in Hw. destruct Hw as (Hf & Hfb & Hflt).
  exists first, (last (first :: rest) 0%nat).
  split; [|split].
  - split; [split; [lia | exact Hfb] |].
    intros k Hk. apply Hflt. lia.
  - split; [split; [lia | exact Hlb] |].
    intros k Hk. apply Hlgt. lia.
  - rewrite !fnth_map_seq by lia. reflexivity.
Qed.

End CriticalHeight.

Lemma none_in_band (ci u : float) (l : list float) :
  forallb (fun d => negb (DecayIndexCalculator.in_band ci u d)) l = true ->
  forall i, (i < length l)%nat ->
    DecayIndexCalculator.in_band ci u (fnth l i) = false.
Proof.
  intros H i Hi. apply negb_true_iff.
  exact (forallb_fnth _ l H i Hi).
Qed.

(** A column of constant magnitude: the decay index vanishes at every
    sample, nothing lies in [1.4, 1.6], the sentinel is returned. *)
Lemma find_critical_height_no_crossing_witness :
  DecayIndexCalculator.calculate_decay_index
    (column_calculator [1; 1; 1] 0.72) 1 0 None 100 = Ok flat_profile /\
  (forall i, (i < length flat_profile)%nat ->
     DecayIndexCalculator.in_band 1.5 0.1 (fnth flat_profile i) = false) /\
  DecayIndexCalculator.find_critical_height
    (column_calculator [1; 1; 1] 0.72) 1 0 1.5 0.1 =
  Ok (mk_result flat_profile infinity (infinity, infinity)).
Proof.
  assert (H1 : DecayIndexCalculator.calculate_decay_index
                 (column_calculator [1; 1; 1] 0.72) 1 0 None 100 =
               Ok flat_profile) by (vm_compute; reflexivity).
  assert (H2 : forall i, (i < length flat_profile)%nat ->
                 DecayIndexCalculator.in_band 1.5 0.1 (fnth flat_profile i)
                 = false)
    by (apply none_in_band; vm_compute; reflexivity).
  split; [exact H1 | split; [exact H2 |]].
  exact (find_critical_height_no_crossing
           (column_calculator [1; 1; 1] 0.72) 1 0 1.5 0.1 flat_profile H1 H2).
Defined.

(** The exponential column: samples 15 and 16 are the qualifying ones. *)
Lemma find_critical_height_first_crossing_witness :
  DecayIndexCalculator.calculate_decay_index
    (column_calculator exp_column 1) 0 0 None 100 = Ok exp_profile /\
  (exists j, qualifies 1.5 0.1 exp_profile j) /\
  exists first last,
    first_qualifying 1.5 0.1 exp_profile first /\
    last_qualifying 1.5 0.1 exp_profile last /\
    DecayIndexCalculator.find_critical_height
      (column_calculator exp_column 1) 0 0 1.5 0.1 =
    Ok (mk_result exp_profile
          (sample_height (column_calculator exp_column 1) first)
          (sample_height (column_calculator exp_column 1) first - 0.1 * 1,
           sample_height (column_calculator exp_column 1) last + 0.1 * 1)).
Proof.
  assert (H1 : DecayIndexCalculator.calculate_decay_index
                 (column_calculator exp_column 1) 0 0 None 100 =
               Ok exp_profile) by (vm_compute; reflexivity).
  assert (H2 : exists j, qualifies 1.5 0.1 exp_profile j).
  { exists 15%nat. split; [vm_compute; lia | vm_compute; reflexivity]. }
  split; [exact H1 | split; [exact H2 |]].
  exact (find_critical_height_first_crossing
           (column_calculator exp_column 1) 0 0 1.5 0.1 exp_profile H1 H2).
Defined.

(** C1: on a volume whose magnitude along the queried column is
    100 exp(-z/5) at the grid heights 0..49, with grid spacing 1.0, the
    decay index z/5 reaches 1.5 at height 7.5; the samples lie 49/99
    apart, the first one in [1.4, 1.6] is sample 15 (height 7.42), and
    [find_critical_height] returns its index times the grid spacing,
    15.0, with range (14.9, 16.1): outside 7.5 +- 1. *)
Theorem exp_decay_critical_height :
  DecayIndexCalculator.init (column_field exp_column) 1 =
    Ok (column_calculator exp_column 1) /\
  DecayIndexCalculator.find_critical_height
    (column_calculator exp_column 1) 0 0 1.5 0.1 =
    Ok (mk_result exp_profile 15 (15 - 0.1 * 1, 16 + 0.1 * 1)) /\
  fnth (DecayIndexCalculator.heights (column_calculator exp_column 1) None 100)
       15 = 0x1.db26c9b26c9b3p+2 /\
  (7.5 + 1 <? 15) = true.
Proof. repeat split; vm_compute; reflexivity. Qed.

(** ** Construction of the calculator *)

Lemma new_interpolator_ok (points : list nat) (vals : ndarray float) :
  firstn (length points) (shape vals) = points ->
  new_interpolator points vals = Ok (mk_interpolator points vals).
Proof.
  intros H. unfold new_interpolator.
  assert (Hlen : (length points <= ndim vals)%nat).
  { unfold ndim. rewrite <- H at 1. rewrite length_firstn. lia. }
  destruct (Nat.ltb_spec (ndim vals) (length points)); [lia|].
  apply shape_eqb_eq in H. rewrite H. reflexivity.
Qed.

Lemma new_interpolator_raises (points : list nat) (vals : ndarray float) :
  firstn (length points) (shape vals) <> points ->
  raises (new_interpolator points vals).
Proof.
  intros H. unfold new_interpolator.
  destruct (ndim vals <? length points)%nat; [now exists ValueError|].
  destruct (shape_eqb _ _) eqn:E; [|now exists ValueError].
  apply shape_eqb_eq in E. contradiction.
Qed.

(** The calculators of the examples are the ones the constructor builds. *)
Lemma init_column_field (col : list float) (grid_spacing : float) :
  DecayIndexCalculator.init (column_field col) grid_spacing =
  Ok (column_calculator col grid_spacing).
Proof.
  unfold DecayIndexCalculator.init, DecayIndexCalculator._setup_interpolators.
  simpl. rewrite new_interpolator_ok by reflexivity. reflexivity.
Qed.

(** C3, as the code has it: construction succeeds exactly when bx is
    three-dimensional and the leading three extents of bh are those of
    bx, and raises otherwise; by and bz do not enter the outcome. *)
Theorem init_checks_bh_against_bx (fld : field_dict) (grid_spacing : float) :
  (bh_fits_bx fld ->
   DecayIndexCalculator.init fld grid_spacing =
   Ok (DecayIndexCalculator.mk fld grid_spacing
         (mk_interpolator (shape (bx fld)) (bh fld)))) /\
  (~ bh_fits_bx fld -> raises (DecayIndexCalculator.init fld grid_spacing)) /\
  (forall by' bz',
     DecayIndexCalculator.init (mk_field (bx fld) by' bz' (bh fld)) grid_spacing
       = Raise ValueError <->
     DecayIndexCalculator.init fld grid_spacing = Raise ValueError).
Proof.
  unfold bh_fits_bx, DecayIndexCalculator.init,
    DecayIndexCalculator._setup_interpolators, ndim.
  split; [|split].
  - intros [Hdim Hfit].
    destruct (shape (bx fld)) as [|nx [|ny [|nz [|? ?]]]] eqn:Hs;
      try discriminate.
    rewrite new_interpolator_ok by exact Hfit. reflexivity.
  - intros Hno.
    destruct (shape (bx fld)) as [|nx [|ny [|nz [|? ?]]]] eqn:Hs;
      try (now exists ValueError).
    destruct (new_interpolator_raises [nx; ny; nz] (bh fld)) as [e He].
    + intros Hfit. apply Hno. split; [reflexivity | exact Hfit].
    + exists e. rewrite He. reflexivity.
  - intros by' bz'. simpl.
    destruct (shape (bx fld)) as [|nx [|ny [|nz [|? ?]]]]; try tauto.
    destruct (new_interpolator [nx; ny; nz] (bh fld)); simpl;
      split; intros H; try discriminate; exact H.
Qed.

(** C3 as stated fails: by and bz differ in shape from bx and bh, and
    the calculator is built all the same. *)
Lemma init_accepts_mismatched_by_bz :
  shape (by_ mismatched_field) <> shape (bx mismatched_field) /\
  shape (bz mismatched_field) <> shape (bx mismatched_field) /\
  DecayIndexCalculator.init mismatched_field 0.72 =
  Ok (DecayIndexCalculator.mk mismatched_field 0.72
        (mk_interpolator [2; 2; 2]%nat (bh mismatched_field))).
Proof.
  split; [|split]; try (simpl; congruence). reflexivity.
Qed.

(** ** Masks *)

Lemma nth_map_seq_bool (g : nat -> bool) (n i : nat) :
  nth i (map g (seq 0 n)) false = if (i <? n)%nat then g i else false.
Proof.
  destruct (Nat.ltb_spec i n) as [Hi|Hi].
  - rewrite (nth_indep _ false (g 0%nat)) by (rewrite length_map, length_seq; lia).
    rewrite map_nth, seq_nth by lia. reflexivity.
  - apply nth_overflow. rewrite length_map, length_seq. lia.
Qed.

Lemma bnth_amap (f : float -> bool) (a : ndarray float) (i : nat) :
  (i < length (flat a))%nat -> bnth (amap f a) i = f (fnth (flat a) i).
Proof.
  intros Hi. unfold bnth, amap, fnth. simpl.
  rewrite (nth_indep _ false (f 0)) by (rewrite length_map; lia).
  apply map_nth.
Qed.

Lemma bnth_amap_true (f : float -> bool) (a : ndarray float) (i : nat) :
  bnth (amap f a) i = true ->
  (i < length (flat a))%nat /\ f (fnth (flat a) i) = true.
Proof.
  intros H. destruct (Nat.lt_ge_cases i (length (flat a))) as [Hi|Hi].
  - split; [exact Hi|]. rewrite <- bnth_amap by exact Hi. exact H.
  - unfold bnth, amap in H. simpl in H.
    rewrite nth_overflow in H by (rewrite length_map; lia). discriminate.
Qed.

Lemma nth_and_combine (l1 l2 : list bool) (i : nat) :
  nth i (map (fun p : bool * bool => fst p && snd p) (combine l1 l2)) false =
  nth i l1 false && nth i l2 false.
Proof.
  revert l2 i. induction l1 as [|a l1 IH]; intros [|b l2] [|i]; simpl;
    try reflexivity; try (rewrite andb_false_r; reflexivity).
  apply IH.
Qed.

Lemma logical_and_ok (a b c : ndarray bool) :
  logical_and a b = Ok c ->
  shape c = shape a /\ shape a = shape b /\
  forall i, bnth c i = bnth a i && bnth b i.
Proof.
  unfold logical_and. destruct (shape_eqb (shape a) (shape b)) eqn:E;
    [|discriminate].
  intros H. injection H as <-. apply shape_eqb_eq in E.
  split; [reflexivity | split; [exact E |]].
  intros i. unfold bnth. simpl. apply nth_and_combine.
Qed.

Lemma logical_and_same_shape (a b : ndarray bool) :
  shape a = shape b -> exists c, logical_and a b = Ok c.
Proof.
  intros H. unfold logical_and. apply shape_eqb_eq in H. rewrite H. eauto.
Qed.

Lemma count_true_amap_mono (f g : float -> bool) (a : ndarray float) :
  (forall d, f d = true -> g d = true) ->
  (count_true (amap f a) <= count_true (amap g a))%nat.
Proof.
  intros Himp. unfold count_true, amap. simpl.
  induction (flat a) as [|d l IH]; simpl; [lia|].
  destruct (f d) eqn:Ef.
  - rewrite (Himp d Ef). simpl. lia.
  - destruct (g d); simpl; lia.
Qed.

(** ** The PIL detector *)

Section PILProperties.

Import PILDetector.

Variable gaussian_filter : ndarray float -> float -> ndarray float.
Variable canny : ndarray bool -> float -> ndarray bool.
Variable dilation : ndarray bool -> nat -> ndarray bool.
Variable thin : ndarray bool -> ndarray bool.

(** What is used of the library routines. *)
Hypothesis gaussian_filter_shape :
  forall a sigma, shape (gaussian_filter a sigma) = shape a.
Hypothesis canny_shape :
  forall im sigma, ndim im = 2%nat -> shape (canny im sigma) = shape im.
Hypothesis dilation_shape :
  forall e size, shape (dilation e size) = shape e.
Hypothesis thin_shape : forall m, shape (thin m) = shape m.
Hypothesis thin_removes :
  forall m i, bnth (thin m) i = true -> bnth m i = true.

(** C2, as the code has it: the thresholds are not validated.  For
    every magnetogram and every pair of thresholds, inverted or not,
    the call returns normally; the positive map is true exactly where
    value >= pos_thresh, the negative map exactly where value <=
    neg_thresh, so a pixel lies in both maps exactly when pos_thresh
    <= value <= neg_thresh. *)
Theorem identify_polarity_regions_never_rejects
  (self : t) (pos_thresh neg_thresh : float)
  (apply_gaussian : bool) (sigma : float) :
  exists p n,
    identify_polarity_regions gaussian_filter self pos_thresh neg_thresh
      apply_gaussian sigma =
    Ok (mk (data self) (Some p) (Some n) (pil_map self)) /\
    shape p = shape (thresholded gaussian_filter self apply_gaussian sigma) /\
    shape n = shape (thresholded gaussian_filter self apply_gaussian sigma) /\
    forall i,
      (i < length (flat (thresholded gaussian_filter self apply_gaussian sigma)))%nat ->
      let d := fnth (flat (thresholded gaussian_filter self apply_gaussian sigma)) i in
      bnth p i = (pos_thresh <=? d) /\
      bnth n i = (d <=? neg_thresh) /\
      (bnth p i && bnth n i = true <->
       (pos_thresh <=? d) = true /\ (d <=? neg_thresh) = true).
Proof.
  eexists _, _. split; [reflexivity|].
  split; [reflexivity | split; [reflexivity|]].
  intros i Hi d. rewrite !bnth_amap by exact Hi. fold d. unfold geb.
  split; [reflexivity | split; [reflexivity|]].
  apply andb_true_iff.
Qed.

(** C7: for a fixed magnetogram and fixed smoothing settings, raising
    [pos_thresh] from [t1] to [t2] never increases the number of true
    pixels of the positive map. *)
Theorem positive_map_antitone
  (self : t) (apply_gaussian : bool) (sigma : float)
  (t1 t2 neg1 neg2 : float) :
  (t1 <=? t2) = true ->
  exists s1 s2 p1 p2,
    identify_polarity_regions gaussian_filter self t1 neg1
      apply_gaussian sigma = Ok s1 /\
    identify_polarity_regions gaussian_filter self t2 neg2
      apply_gaussian sigma = Ok s2 /\
    pos_map s1 = Some p1 /\ pos_map s2 = Some p2 /\
    (count_true p2 <= count_true p1)%nat.
Proof.
  intros Hle. eexists _, _, _, _.
  split; [reflexivity | split; [reflexivity |]].
  split; [reflexivity | split; [reflexivity |]].
  apply count_true_amap_mono. intros d Hd. unfold geb in *.
  exact (FloatFacts.leb_trans t1 t2 d Hle Hd).
Qed.

Lemma extract_pil_ok (self : t) (thinning : bool) (pil : ndarray bool) (self' : t) :
  extract_pil canny dilation thin self thinning = Ok (pil, self') ->
  exists raw,
    pil = (if thinning then thin raw else raw) /\
    forall i, bnth raw i = true ->
      bnth (amap (fun d => negb (PrimFloat.is_nan d)) (data self)) i = true.
Proof.
  unfold extract_pil.
  destruct (detect_edges canny self 1) as [[pe ne]|e]; [|discriminate].
  simpl.
  destruct (logical_and _ _) as [both|e] eqn:Hb; [|discriminate]. simpl.
  destruct (logical_and both _) as [raw|e] eqn:Hr; [|discriminate]. simpl.
  intros H. injection H as <- _. exists raw. split; [reflexivity|].
  apply logical_and_ok in Hr. destruct Hr as (_ & _ & Hr).
  intros i Hi. rewrite Hr in Hi. apply andb_true_iff in Hi. apply Hi.
Qed.

(** C6: with or without thinning, every true pixel of the map
    returned by [extract_pil] is a pixel of the magnetogram whose
    value is not NaN. *)
Theorem extract_pil_masks_nan
  (self : t) (thinning : bool) (pil : ndarray bool) (self' : t) :
  extract_pil canny dilation thin self thinning = Ok (pil, self') ->
  forall i, bnth pil i = true ->
    (i < length (flat (data self)))%nat /\
    PrimFloat.is_nan (fnth (flat (data self)) i) = false.
Proof.
  intros H i Hi. apply extract_pil_ok in H.
  destruct H as (raw & -> & Hraw).
  assert (Hr : bnth raw i = true).
  { destruct thinning; [now apply thin_removes | exact Hi]. }
  apply Hraw, bnth_amap_true in Hr. destruct Hr as [Hlt Hn].
  split; [exact Hlt | now apply negb_true_iff].
Qed.

Lemma size_amap {A B : Type} (f : A -> B) (a : ndarray A) :
  size (amap f a) = size a.
Proof. reflexivity. Qed.

Lemma size_of_shape {A B : Type} (a : ndarray A) (b : ndarray B) :
  shape a = shape b -> size a = size b.
Proof. unfold size. intros ->. reflexivity. Qed.

(** C10, as the code has it: on a detector on which
    [identify_polarity_regions] has not run, [detect_edges] and
    [extract_pil] raise [AttributeError] (the polarity maps are
    [None]).  Once it has run, [extract_pil] returns a map of the
    magnetogram's shape when the magnetogram is a non-empty
    two-dimensional array, and raises [ValueError] when it is empty or
    has another number of axes. *)
Theorem extract_pil_needs_polarity_maps
  (magnetogram : ndarray float) (thinning : bool) (sigma : float) :
  detect_edges canny (init magnetogram) sigma = Raise AttributeError /\
  extract_pil canny dilation thin (init magnetogram) thinning =
    Raise AttributeError /\
  forall pos_thresh neg_thresh apply_gaussian sigma' self,
    identify_polarity_regions gaussian_filter (init magnetogram)
      pos_thresh neg_thresh apply_gaussian sigma' = Ok self ->
    (size magnetogram <> 0%nat /\ ndim magnetogram = 2%nat ->
     exists pil self',
       extract_pil canny dilation thin self thinning = Ok (pil, self') /\
       pil_map self' = Some pil /\
       shape pil = shape magnetogram) /\
    (size magnetogram = 0%nat \/ ndim magnetogram <> 2%nat ->
     extract_pil canny dilation thin self thinning = Raise ValueError).
Proof.
  split; [reflexivity | split; [reflexivity |]].
  intros pos_thresh neg_thresh apply_gaussian sigma' self Hid.
  injection Hid as <-.
  set (d := thresholded gaussian_filter (init magnetogram) apply_gaussian sigma').
  assert (Hd : shape d = shape magnetogram).
  { unfold d, thresholded. destruct apply_gaussian; simpl;
      [apply gaussian_filter_shape | reflexivity]. }
  assert (Hsz : forall f : float -> bool, size (amap f d) = size magnetogram).
  { intros f. rewrite size_amap. apply size_of_shape. exact Hd. }
  assert (Hnd : forall f : float -> bool, ndim (amap f d) = ndim magnetogram).
  { intros f. unfold ndim. simpl. rewrite Hd. reflexivity. }
  unfold extract_pil, detect_edges, canny_checked, dilate_edges.
  cbn [pos_map neg_map data]. fold d. rewrite !Hsz, !Hnd.
  split.
  - intros [Hne Hdim].
    destruct (Nat.eqb_spec (size magnetogram) 0) as [|_]; [contradiction|].
    rewrite Hdim. simpl.
    set (pe := canny (amap (fun d0 => geb d0 pos_thresh) d) 1).
    set (ne := canny (amap (fun d0 => d0 <=? neg_thresh) d) 1).
    assert (Hpe : shape (dilation pe 6) = shape magnetogram).
    { rewrite dilation_shape. unfold pe.
      rewrite canny_shape by (rewrite Hnd; exact Hdim). exact Hd. }
    assert (Hne' : shape (dilation ne 6) = shape magnetogram).
    { rewrite dilation_shape. unfold ne.
      rewrite canny_shape by (rewrite Hnd; exact Hdim). exact Hd. }
    destruct (logical_and_same_shape (dilation pe 6) (dilation ne 6))
      as [both Hboth]; [congruence|].
    rewrite Hboth. simpl.
    pose proof (logical_and_ok _ _ _ Hboth) as (Hsb & _ & _).
    destruct (logical_and_same_shape both
                (amap (fun d0 => negb (PrimFloat.is_nan d0)) magnetogram))
      as [raw Hraw]; [simpl; congruence|].
    rewrite Hraw. simpl.
    pose proof (logical_and_ok _ _ _ Hraw) as (Hsr & _ & _).
    eexists _, _. split; [reflexivity | split; [reflexivity |]].
    destruct thinning; [rewrite thin_shape|]; congruence.
  - intros [Hempty|Hdim].
    + rewrite Hempty. reflexivity.
    + destruct (size magnetogram =? 0)%nat; [reflexivity|].
      destruct (Nat.eqb_spec (ndim magnetogram) 2) as [|_]; [contradiction|].
      reflexivity.
Qed.

End PILProperties.

(** ** The detector on the 4 x 4 magnetogram *)

Lemma thin_rows_removes (m : ndarray bool) (i : nat) :
  bnth (Reference.thin_rows m) i = true -> bnth m i = true.
Proof.
  unfold bnth, Reference.thin_rows. simpl. rewrite nth_map_seq_bool.
  destruct (i <? length (flat m))%nat; [|discriminate].
  intros H. apply andb_true_iff in H. apply H.
Qed.

(** C2 as stated fails: with pos_thresh = -300 <= neg_thresh = 300 the
    call returns normally and both polarity maps are the whole field of
    view. *)
Lemma identify_polarity_regions_accepts_inverted_thresholds :
  (-300 <=? 300) = true /\
  PILDetector.identify_polarity_regions Reference.no_smoothing
    (PILDetector.init split_magnetogram) (-300) 300 false 3 =
  Ok (PILDetector.mk split_magnetogram
        (Some split_valid) (Some split_valid) None).
Proof. split; reflexivity. Qed.

Lemma positive_map_antitone_witness :
  (100 <=? 180) = true /\
  exists s1 s2 p1 p2,
    PILDetector.identify_polarity_regions Reference.no_smoothing
      (PILDetector.init split_magnetogram) 100 (-100) false 3 = Ok s1 /\
    PILDetector.identify_polarity_regions Reference.no_smoothing
      (PILDetector.init split_magnetogram) 180 (-100) false 3 = Ok s2 /\
    PILDetector.pos_map s1 = Some p1 /\ PILDetector.pos_map s2 = Some p2 /\
    (count_true p2 <= count_true p1)%nat.
Proof.
  split; [reflexivity|].
  exact (positive_map_antitone Reference.no_smoothing
           (PILDetector.init split_magnetogram) false 3 100 180 (-100) (-100)
           eq_refl).
Defined.

Lemma extract_pil_masks_nan_witness :
  (forall m i, bnth (Reference.thin_rows m) i = true -> bnth m i = true) /\
  PILDetector.extract_pil Reference.edges Reference.dilate Reference.thin_rows
    split_detector true =
  Ok (split_pil,
      PILDetector.mk split_magnetogram (PILDetector.pos_map split_detector)
        (PILDetector.neg_map split_detector) (Some split_pil)) /\
  bnth split_pil 10 = true /\
  (10 < length (flat split_magnetogram))%nat /\
  PrimFloat.is_nan (fnth (flat split_magnetogram) 10) = false.
Proof.
  assert (H1 : PILDetector.extract_pil Reference.edges Reference.dilate
                 Reference.thin_rows split_detector true =
               Ok (split_pil,
                   PILDetector.mk split_magnetogram
                     (PILDetector.pos_map split_detector)
                     (PILDetector.neg_map split_detector) (Some split_pil)))
    by (vm_compute; reflexivity).
  assert (H2 : bnth split_pil 10 = true) by reflexivity.
  split; [exact thin_rows_removes | split; [exact H1 | split; [exact H2 |]]].
  exact (extract_pil_masks_nan Reference.edges Reference.dilate
           Reference.thin_rows thin_rows_removes split_detector true
           split_pil _ H1 10%nat H2).
Defined.

Lemma extract_pil_needs_polarity_maps_witness :
  (size split_magnetogram <> 0%nat /\ ndim split_magnetogram = 2%nat) /\
  PILDetector.detect_edges Reference.edges
    (PILDetector.init split_magnetogram) 1 = Raise AttributeError /\
  PILDetector.extract_pil Reference.edges Reference.dilate
    Reference.thin_rows (PILDetector.init split_magnetogram) true =
    Raise AttributeError /\
  (exists pil self',
     PILDetector.identify_polarity_regions Reference.no_smoothing
       (PILDetector.init split_magnetogram) 100 (-100) false 3 =
       Ok split_detector /\
     PILDetector.extract_pil Reference.edges Reference.dilate
       Reference.thin_rows split_detector true = Ok (pil, self') /\
     PILDetector.pil_map self' = Some pil /\
     shape pil = shape split_magnetogram) /\
  ndim line_magnetogram <> 2%nat /\
  exists self,
    PILDetector.identify_polarity_regions Reference.no_smoothing
      (PILDetector.init line_magnetogram) 100 (-100) false 3 = Ok self /\
    PILDetector.extract_pil Reference.edges Reference.dilate
      Reference.thin_rows self true = Raise ValueError.
Proof.
  assert (Hsplit : size split_magnetogram <> 0%nat /\
                   ndim split_magnetogram = 2%nat)
    by (split; [discriminate | reflexivity]).
  assert (Hline : ndim line_magnetogram <> 2%nat) by discriminate.
  destruct (extract_pil_needs_polarity_maps Reference.no_smoothing
              Reference.edges Reference.dilate Reference.thin_rows
              (fun _ _ => eq_refl) (fun _ _ _ => eq_refl)
              (fun _ _ => eq_refl) (fun _ => eq_refl)
              split_magnetogram true 1) as (H1 & H2 & H3).
  destruct (extract_pil_needs_polarity_maps Reference.no_smoothing
              Reference.edges Reference.dilate Reference.thin_rows
              (fun _ _ => eq_refl) (fun _ _ _ => eq_refl)
              (fun _ _ => eq_refl) (fun _ => eq_refl)
              line_magnetogram true 1) as (_ & _ & H4).
  split; [exact Hsplit | split; [exact H1 | split; [exact H2 | split]]].
  - destruct (H3 100 (-100) false 3 split_detector eq_refl) as [Hret _].
    destruct (Hret Hsplit) as (pil & self' & He & Hp & Hs).
    exists pil, self'.
    split; [reflexivity | split; [exact He | split; assumption]].
  - split; [exact Hline|].
    eexists. split; [reflexivity|].
    exact (proj2 (H4 100 (-100) false 3 _ eq_refl) (or_intror Hline)).
Defined.

(** C10 as stated fails: [identify_polarity_regions] has run and
    [extract_pil] still returns no map, on a magnetogram without pixels
    and on a one-dimensional one. *)
Lemma extract_pil_rejects_after_identify :
  (exists self,
     PILDetector.identify_polarity_regions Reference.no_smoothing
       (PILDetector.init empty_magnetogram) 100 (-100) false 3 = Ok self /\
     PILDetector.extract_pil Reference.edges Reference.dilate
       Reference.thin_rows self true = Raise ValueError) /\
  (exists self,
     PILDetector.identify_polarity_regions Reference.no_smoothing
       (PILDetector.init line_magnetogram) 100 (-100) false 3 = Ok self /\
     PILDetector.extract_pil Reference.edges Reference.dilate
       Reference.thin_rows self true = Raise ValueError).
Proof. split; eexists; split; reflexivity. Qed.

(** ** np.linspace, np.diff and np.gradient, sample by sample *)

Lemma length_linspace (a b : float) (n : nat) : length (linspace a b n) = n.
Proof.
  unfold linspace.
  set (y := map (fun v => v + a) _).
  assert (Hy : length y = n).
  { unfold y. destruct (0 <? float_of_Z (Z.of_nat n - 1));
      [destruct ((b - a) / float_of_Z (Z.of_nat n - 1) =? 0)|];
      rewrite !length_map, length_seq; reflexivity. }
  destruct (1 <? n)%nat; [|exact Hy].
  unfold set_last. destruct y as [|v y']; [exact Hy|].
  rewrite length_app, removelast_firstn_len, length_firstn. simpl in *. lia.
Qed.

Lemma linspace_last (a b : float) (n : nat) :
  (2 <= n)%nat -> fnth (linspace a b n) (n - 1) = b.
Proof.
  intros Hn. unfold linspace.
  set (y := map (fun v => v + a) _).
  assert (Hy : length y = n).
  { unfold y. destruct (0 <? float_of_Z (Z.of_nat n - 1));
      [destruct ((b - a) / float_of_Z (Z.of_nat n - 1) =? 0)|];
      rewrite !length_map, length_seq; reflexivity. }
  destruct (Nat.ltb_spec 1 n) as [_|]; [|lia].
  unfold set_last, fnth. destruct y as [|v y'] eqn:E; [simpl in Hy; lia|].
  rewrite <- E in *.
  assert (Hr : length (removelast y) = (n - 1)%nat).
  { rewrite removelast_firstn_len, length_firstn. lia. }
  rewrite <- Hr. apply nth_middle.
Qed.

Lemma linspace_inner (a b : float) (n i : nat) :
  (i < n - 1)%nat ->
  (0 <? float_of_Z (Z.of_nat n - 1)) = true ->
  ((b - a) / float_of_Z (Z.of_nat n - 1) =? 0) = false ->
  fnth (linspace a b n) i =
  float_of_nat i * ((b - a) / float_of_Z (Z.of_nat n - 1)) + a.
Proof.
  intros Hi Hdiv Hstep. unfold linspace. rewrite Hdiv, Hstep.
  destruct (Nat.ltb_spec 1 n) as [_|]; [|lia].
  set (step := (b - a) / float_of_Z (Z.of_nat n - 1)).
  set (g := fun k => float_of_nat k * step + a).
  rewrite map_map, map_map. fold g.
  assert (Hlen : length (map g (seq 0 n)) = n)
    by (rewrite length_map, length_seq; reflexivity).
  unfold set_last, fnth.
  destruct (map g (seq 0 n)) as [|v y'] eqn:E; [simpl in Hlen; lia|].
  rewrite <- E in *.
  rewrite app_nth1
    by (rewrite removelast_firstn_len, length_firstn; lia).
  rewrite removelast_firstn_len, nth_firstn.
  destruct (Nat.ltb_spec i (Nat.pred (length (map g (seq 0 n))))) as [_|]; [|lia].
  apply fnth_map_seq. lia.
Qed.

Lemma length_diff (l : list float) : length (diff l) = (length l - 1)%nat.
Proof.
  induction l as [|a [|b l] IH]; simpl in *; try reflexivity.
  rewrite IH. lia.
Qed.

Lemma fnth_diff (l : list float) (k : nat) :
  (k + 1 < length l)%nat -> fnth (diff l) k = fnth l (k + 1) - fnth l k.
Proof.
  revert k. induction l as [|a [|b l] IH]; intros k Hk; simpl in Hk; try lia.
  destruct k as [|k]; [reflexivity|].
  change (fnth (diff (a :: b :: l)) (S k)) with (fnth (diff (b :: l)) k).
  rewrite IH by (simpl; lia). reflexivity.
Qed.

Lemma forallb_map_S (P : nat -> bool) (s : list nat) :
  forallb P (map S s) = forallb (fun i => P (S i)) s.
Proof. induction s as [|i s IH]; [reflexivity | simpl; now rewrite IH]. Qed.

Lemma forallb_by_index (f : float -> bool) (l : list float) :
  forallb f l = forallb (fun i => f (fnth l i)) (seq 0 (length l)).
Proof.
  induction l as [|a l IH]; [reflexivity|].
  simpl. f_equal. rewrite <- seq_shift, forallb_map_S. exact IH.
Qed.

Lemma forallb_ext_in {A : Type} (f g : A -> bool) (l : list A) :
  (forall a, In a l -> f a = g a) -> forallb f l = forallb g l.
Proof.
  induction l as [|a l IH]; intros H; [reflexivity|].
  simpl. rewrite (H a (or_introl eq_refl)), IH; [reflexivity|].
  intros b Hb. apply H. now right.
Qed.

Lemma uniform_spacing_evenly (zs : list float) :
  (2 <= length zs)%nat ->
  uniform_spacing (diff zs) = evenly (fnth zs) (length zs).
Proof.
  intros Hn. unfold uniform_spacing, evenly.
  rewrite forallb_by_index, length_diff.
  apply forallb_ext_in. intros i Hi. apply in_seq in Hi.
  unfold spacing. rewrite !fnth_diff by lia. reflexivity.
Qed.

Lemma fnth_map (g : float -> float) (l : list float) (i : nat) :
  (i < length l)%nat -> fnth (map g l) i = g (fnth l i).
Proof.
  intros Hi. unfold fnth.
  rewrite (nth_indep _ 0 (g 0)) by (rewrite length_map; lia).
  apply map_nth.
Qed.

(** [np.gradient] agrees with [difference_quotient] at every sample. *)
Lemma gradient_spec (mags zs : list float) (g : float -> float) :
  (2 <= length zs)%nat -> length mags = length zs ->
  gradient (map g mags) zs =
  Ok (map (difference_quotient (fun i => g (fnth mags i)) (fnth zs)
             (length zs))
          (seq 0 (length zs))).
Proof.
  intros Hn Hlen. unfold gradient. rewrite length_map, Hlen, Nat.eqb_refl.
  simpl negb. cbv iota.
  destruct (diff zs) as [|d0 ds] eqn:Ed.
  { pose proof (length_diff zs) as Hd. rewrite Ed in Hd. simpl in Hd. lia. }
  rewrite <- Ed. f_equal. apply map_ext_in. intros i Hi. apply in_seq in Hi.
  assert (Hd0 : d0 = spacing (fnth zs) 0).
  { unfold spacing. rewrite <- fnth_diff by lia. rewrite Ed. reflexivity. }
  rewrite uniform_spacing_evenly by exact Hn.
  unfold difference_quotient, gradient_uniform, gradient_nonuniform.
  rewrite length_map, Hlen, <- Hd0.
  destruct (evenly (fnth zs) (length zs)).
  - destruct (Nat.eqb_spec i 0) as [->|Hi0];
      [|destruct (Nat.eqb_spec i (length zs - 1)) as [->|Hil]];
      rewrite !fnth_map by lia; reflexivity.
  - unfold spacing.
    destruct (Nat.eqb_spec i 0) as [->|Hi0];
      [|destruct (Nat.eqb_spec i (length zs - 1)) as [->|Hil]];
      rewrite !fnth_map by lia; rewrite !fnth_diff by lia.
    + rewrite Hd0. reflexivity.
    + replace (length zs - 2 + 1)%nat with (length zs - 1)%nat by lia.
      reflexivity.
    + replace (i - 1 + 1)%nat with i by lia. reflexivity.
Qed.

(** ** calculate_decay_index, sample by sample *)

Lemma map_combine3 (F : float -> float -> float -> float) (x y : float)
  (zs : list float) :
  map (fun p : float * float * float => let '(a, b, c) := p in F a b c)
      (combine (combine (map (fun _ => x) zs) (map (fun _ => y) zs)) zs) =
  map (F x y) zs.
Proof. induction zs as [|z zs IH]; [reflexivity | simpl; now rewrite IH]. Qed.

Lemma call_interpolator_spec (self : DecayIndexCalculator.t) (x y : float)
  (zs : list float) :
  samples_in_grid self x y zs = true ->
  call_interpolator (DecayIndexCalculator.bh_interpolator self)
    (map (fun _ => x) zs) (map (fun _ => y) zs) zs =
  Ok (map (interpolant self x y) zs).
Proof.
  unfold samples_in_grid, call_interpolator, interpolant.
  destruct (grid (DecayIndexCalculator.bh_interpolator self))
    as [|nx [|ny [|nz [|? ?]]]]; try discriminate.
  intros H. apply andb_true_iff in H. destruct H as [Hnz Hin].
  apply negb_true_iff in Hnz. rewrite Hnz, Hin.
  f_equal. apply map_combine3.
Qed.

Lemma map_combine_seq (zs : list float) (G : nat -> float) :
  map (fun p : float * float => - fst p * snd p)
      (combine zs (map G (seq 0 (length zs)))) =
  map (fun i => - fnth zs i * G i) (seq 0 (length zs)).
Proof.
  set (f := fun p : float * float => - fst p * snd p).
  apply (nth_ext _ _ 0 0).
  - rewrite !length_map, length_combine, length_map, length_seq. lia.
  - intros i Hi.
    rewrite length_map, length_combine, length_map, length_seq in Hi.
    assert (Hi' : (i < length zs)%nat) by lia.
    change (nth i (map (fun i0 => - fnth zs i0 * G i0) (seq 0 (length zs))) 0)
      with (fnth (map (fun i0 => - fnth zs i0 * G i0) (seq 0 (length zs))) i).
    rewrite fnth_map_seq by exact Hi'.
    rewrite (nth_indep _ 0 (f (0, 0)))
      by (rewrite length_map, length_combine, length_map, length_seq; lia).
    rewrite map_nth, combine_nth by (rewrite length_map, length_seq; reflexivity).
    unfold f. simpl. f_equal.
    change (nth i (map G (seq 0 (length zs))) 0)
      with (fnth (map G (seq 0 (length zs))) i).
    apply fnth_map_seq. exact Hi'.
Qed.

(** A property of floats that every operation passes on from an
    operand (being NaN; being NaN or infinite) passes from the
    logarithm at a sample to the difference quotients next to it. *)
Section Propagation.

Variable P : float -> Prop.
Hypothesis P_sub_l : forall a b, P a -> P (a - b).
Hypothesis P_sub_r : forall a b, P b -> P (a - b).
Hypothesis P_add_l : forall a b, P a -> P (a + b).
Hypothesis P_add_r : forall a b, P b -> P (a + b).
Hypothesis P_mul_r : forall a b, P b -> P (a * b).
Hypothesis P_div_l : forall a b, P a -> P (a / b).

Lemma difference_quotient_propagates (L z : nat -> float) (n i j : nat) :
  (i < n)%nat -> (j < n)%nat -> adjacent i j -> P (L j) ->
  P (difference_quotient L z n i).
Proof.
  intros Hi Hj Hadj HP. unfold difference_quotient.
  destruct (evenly z n);
    destruct (Nat.eqb_spec i 0) as [Hi0|Hi0];
    try destruct (Nat.eqb_spec i (n - 1)) as [Hil|Hil];
    destruct Hadj as [Hadj|Hadj]; try lia.
  - apply P_div_l, P_sub_l. replace 1%nat with j by lia. exact HP.
  - apply P_div_l, P_sub_r. replace (n - 2)%nat with j by lia. exact HP.
  - apply P_div_l, P_sub_l. rewrite Hadj. exact HP.
  - apply P_div_l, P_sub_r. replace (i - 1)%nat with j by lia. exact HP.
  - apply P_div_l, P_sub_l. replace 1%nat with j by lia. exact HP.
  - apply P_div_l, P_sub_r. replace (n - 2)%nat with j by lia. exact HP.
  - apply P_add_r, P_mul_r. rewrite Hadj. exact HP.
  - apply P_add_l, P_add_l, P_mul_r. replace (i - 1)%nat with j by lia.
    exact HP.
Qed.

Lemma entry_propagates (L z : nat -> float) (n i j : nat) :
  (i < n)%nat -> (j < n)%nat -> adjacent i j -> P (L j) ->
  P (- z i * difference_quotient L z n i).
Proof.
  intros Hi Hj Hadj HP. apply P_mul_r.
  exact (difference_quotient_propagates L z n i j Hi Hj Hadj HP).
Qed.

End Propagation.

Section DecayIndexProfile.

Import DecayIndexCalculator.

Variable self : DecayIndexCalculator.t.
Variables x y : float.
Variable z_range : option (float * float).
Variable n : nat.

Let zs := heights self z_range n.
Let z := fnth zs.
Let L := fun i => log_magnitude self x y (z i).

Hypothesis two_samples : (2 <= n)%nat.
Hypothesis bh_three_dimensional :
  ndim (values (bh_interpolator self)) = 3%nat.
Hypothesis inside : samples_in_grid self x y zs = true.

Lemma length_heights : length zs = n.
Proof. apply length_linspace. Qed.

Lemma calculate_decay_index_entries :
  calculate_decay_index self x y z_range (Z.of_nat n) =
  Ok (map (fun i => - z i * difference_quotient L z n i) (seq 0 n)).
Proof.
  unfold calculate_decay_index.
  destruct (Z.ltb_spec (Z.of_nat n) 0) as [|_]; [lia|].
  rewrite Nat2Z.id. fold zs.
  rewrite call_interpolator_spec by exact inside. simpl bind.
  rewrite bh_three_dimensional. simpl negb. cbv iota.
  rewrite gradient_spec
    by (rewrite ?length_map, length_heights;
        first [exact two_samples | reflexivity]).
  simpl bind. rewrite length_heights.
  rewrite <- length_heights at 1 2. rewrite map_combine_seq, length_heights.
  f_equal. apply map_ext_in. intros i Hi. apply in_seq in Hi.
  fold z. f_equal.
  unfold difference_quotient, L, log_magnitude.
  rewrite !fnth_map by (rewrite length_heights; lia).
  destruct (evenly z n);
    destruct (Nat.eqb_spec i 0) as [->|Hi0];
    try destruct (Nat.eqb_spec i (n - 1)) as [->|Hil];
    rewrite ?fnth_map by (rewrite length_heights; lia); reflexivity.
Qed.

(** C8, as the code has it: for [n_points >= 2] and sample points
    inside the grid, [calculate_decay_index] samples the interpolant at
    the [n_points] heights of [np.linspace] over the z-range (default 0
    to nz - 1): the last height is z_range[1] and height i is
    i * step + z_range[0], step = (z_range[1] - z_range[0]) / (n_points - 1);
    entry i of the result is -z_i times the derivative of the
    log-magnitude, a central difference at interior samples and a
    one-sided difference quotient at the first and the last sample. *)
Theorem calculate_decay_index_profile :
  length zs = n /\
  z (n - 1) = snd (z_range_or_default self z_range) /\
  (let start := fst (z_range_or_default self z_range) in
   let stop := snd (z_range_or_default self z_range) in
   let step := (stop - start) / float_of_Z (Z.of_nat n - 1) in
   (0 <? float_of_Z (Z.of_nat n - 1)) = true -> (step =? 0) = false ->
   forall i, (i < n - 1)%nat -> z i = float_of_nat i * step + start) /\
  calculate_decay_index self x y z_range (Z.of_nat n) =
  Ok (map (fun i => - z i * difference_quotient L z n i) (seq 0 n)).
Proof.
  split; [exact length_heights | split; [|split]].
  - apply linspace_last. exact two_samples.
  - intros start stop step Hdiv Hstep i Hi.
    apply linspace_inner; assumption.
  - exact calculate_decay_index_entries.
Qed.

(** On a three-dimensional [bh] the call returns a profile whatever
    the sampled magnitudes are, and a non-positive magnitude shows at
    the neighbouring samples. *)
Lemma nonpositive_magnitude_propagates :
  exists prof,
    calculate_decay_index self x y z_range (Z.of_nat n) = Ok prof /\
    length prof = n /\
    forall j, (j < n)%nat ->
      ((interpolant self x y (z j) <? 0) = true ->
       PrimFloat.is_nan (log_magnitude self x y (z j)) = true /\
       forall i, (i < n)%nat -> adjacent i j ->
         PrimFloat.is_nan (fnth prof i) = true) /\
      ((interpolant self x y (z j) =? 0) = true ->
       log_magnitude self x y (z j) = neg_infinity /\
       forall i, (i < n)%nat -> adjacent i j -> nonfinite (fnth prof i)).
Proof.
  eexists. split; [exact calculate_decay_index_entries|].
  split; [rewrite length_map, length_seq; reflexivity|].
  intros j Hj. split.
  - intros Hneg.
    assert (HL : PrimFloat.is_nan (L j) = true)
      by (apply FloatFacts.log_negative; exact Hneg).
    split; [exact HL|]. intros i Hi Hadj.
    rewrite fnth_map_seq by exact Hi.
    apply (entry_propagates (fun v => PrimFloat.is_nan v = true)
             FloatFacts.nan_sub_l FloatFacts.nan_sub_r
             FloatFacts.nan_add_l FloatFacts.nan_add_r
             FloatFacts.nan_mul_r FloatFacts.nan_div_l L z n i j);
      assumption.
  - intros Hzero.
    assert (HL : L j = neg_infinity)
      by (apply FloatFacts.log_zero; exact Hzero).
    split; [exact HL|]. intros i Hi Hadj.
    rewrite fnth_map_seq by exact Hi.
    apply (entry_propagates nonfinite
             FloatFacts.nonfinite_sub_l FloatFacts.nonfinite_sub_r
             FloatFacts.nonfinite_add_l FloatFacts.nonfinite_add_r
             FloatFacts.nonfinite_mul_r FloatFacts.nonfinite_div_l L z n i j);
      try assumption.
    rewrite HL. reflexivity.
Qed.

End DecayIndexProfile.

(** C9, as the code has it: for [n_points >= 2] and sample points
    inside the grid of a three-dimensional [bh], the call returns a
    profile whatever the sampled magnitudes are.  A negative magnitude
    has logarithm NaN and the entries at the neighbouring samples are
    NaN; a zero magnitude has logarithm -infinity and the entries at
    the neighbouring samples are NaN or infinite.  On a [bh] with more
    than three axes, which the constructor accepts, the call raises
    [TypeError] whatever the magnitudes are. *)
Theorem calculate_decay_index_nonpositive_magnitude
  (self : DecayIndexCalculator.t) (x y : float)
  (z_range : option (float * float)) (n : nat) :
  (2 <= n)%nat ->
  samples_in_grid self x y (DecayIndexCalculator.heights self z_range n)
    = true ->
  let z := fnth (DecayIndexCalculator.heights self z_range n) in
  ((3 < ndim (values (DecayIndexCalculator.bh_interpolator self)))%nat ->
   DecayIndexCalculator.calculate_decay_index self x y z_range (Z.of_nat n)
     = Raise TypeError) /\
  (ndim (values (DecayIndexCalculator.bh_interpolator self)) = 3%nat ->
   exists prof,
     DecayIndexCalculator.calculate_decay_index self x y z_range (Z.of_nat n)
       = Ok prof /\
     length prof = n /\
     forall j, (j < n)%nat ->
       ((interpolant self x y (z j) <? 0) = true ->
        PrimFloat.is_nan (log_magnitude self x y (z j)) = true /\
        forall i, (i < n)%nat -> adjacent i j ->
          PrimFloat.is_nan (fnth prof i) = true) /\
       ((interpolant self x y (z j) =? 0) = true ->
        log_magnitude self x y (z j) = neg_infinity /\
        forall i, (i < n)%nat -> adjacent i j -> nonfinite (fnth prof i))).
Proof.
  intros Htwo Hin z. split.
  - intros Hdim. unfold DecayIndexCalculator.calculate_decay_index.
    destruct (Z.ltb_spec (Z.of_nat n) 0) as [|_]; [lia|].
    rewrite Nat2Z.id, (call_interpolator_spec self x y _ Hin). cbn [bind].
    destruct (Nat.eqb_spec
                (ndim (values (DecayIndexCalculator.bh_interpolator self))) 3)
      as [E|_]; [lia | reflexivity].
  - intros Hdim.
    exact (nonpositive_magnitude_propagates self x y z_range n Htwo Hdim Hin).
Qed.

(** ** The profile on concrete columns *)

Lemma calculate_decay_index_profile_witness :
  (2 <= 100)%nat /\
  ndim (values (DecayIndexCalculator.bh_interpolator
                  (column_calculator exp_column 1))) = 3%nat /\
  samples_in_grid (column_calculator exp_column 1) 0 0
    (DecayIndexCalculator.heights (column_calculator exp_column 1) None 100)
    = true /\
  length (DecayIndexCalculator.heights (column_calculator exp_column 1)
            None 100) = 100%nat /\
  fnth (DecayIndexCalculator.heights (column_calculator exp_column 1) None 100)
       99 = 49 /\
  (forall i, (i < 99)%nat ->
     fnth (DecayIndexCalculator.heights (column_calculator exp_column 1)
             None 100) i = float_of_nat i * ((49 - 0) / 99) + 0) /\
  exists prof,
    DecayIndexCalculator.calculate_decay_index
      (column_calculator exp_column 1) 0 0 None 100 = Ok prof /\
    length prof = 100%nat.
Proof.
  assert (H1 : (2 <= 100)%nat) by lia.
  assert (H2 : ndim (values (DecayIndexCalculator.bh_interpolator
                               (column_calculator exp_column 1))) = 3%nat)
    by reflexivity.
  assert (H3 : samples_in_grid (column_calculator exp_column 1) 0 0
                 (DecayIndexCalculator.heights
                    (column_calculator exp_column 1) None 100) = true)
    by (vm_compute; reflexivity).
  destruct (calculate_decay_index_profile (column_calculator exp_column 1)
              0 0 None 100 H1 H2 H3) as (Hlen & Hlast & Hinner & Hprof).
  split; [exact H1 | split; [exact H2 | split; [exact H3 |]]].
  split; [exact Hlen | split; [exact Hlast | split]].
  - exact (Hinner eq_refl eq_refl).
  - eexists. split; [exact Hprof|].
    rewrite length_map, length_seq. reflexivity.
Defined.

(** C8 as stated fails: with a single sample, no sample, a query
    column outside the grid or a z-range beyond it, the call raises and
    returns no array. *)
Lemma calculate_decay_index_raises :
  DecayIndexCalculator.calculate_decay_index
    (column_calculator exp_column 1) 0 0 None 1 = Raise IndexError /\
  DecayIndexCalculator.calculate_decay_index
    (column_calculator exp_column 1) 0 0 None 0 = Raise IndexError /\
  DecayIndexCalculator.calculate_decay_index
    (column_calculator exp_column 1) 2 0 None 100 = Raise ValueError /\
  DecayIndexCalculator.calculate_decay_index
    (column_calculator exp_column 1) 0 0 (Some (0, 60)) 100 = Raise ValueError.
Proof. repeat split; vm_compute; reflexivity. Qed.

Lemma calculate_decay_index_nonpositive_magnitude_witness :
  (interpolant (column_calculator notch_column 1) 0 0
     (fnth (DecayIndexCalculator.heights (column_calculator notch_column 1)
              None 5) 2) =? 0) = true /\
  (exists prof,
     DecayIndexCalculator.calculate_decay_index
       (column_calculator notch_column 1) 0 0 None 5 = Ok prof /\
     length prof = 5%nat /\
     nonfinite (fnth prof 1) /\ nonfinite (fnth prof 3)) /\
  (interpolant (column_calculator dip_column 1) 0 0
     (fnth (DecayIndexCalculator.heights (column_calculator dip_column 1)
              None 5) 2) <? 0) = true /\
  (exists prof,
     DecayIndexCalculator.calculate_decay_index
       (column_calculator dip_column 1) 0 0 None 5 = Ok prof /\
     length prof = 5%nat /\
     PrimFloat.is_nan (fnth prof 1) = true /\
     PrimFloat.is_nan (fnth prof 3) = true) /\
  DecayIndexCalculator.init stacked_field 1 = Ok stacked_calculator /\
  DecayIndexCalculator.calculate_decay_index stacked_calculator 0 0 None 5
    = Raise TypeError.
Proof.
  assert (H2 : (2 <= 5)%nat) by lia.
  assert (Hz : (interpolant (column_calculator notch_column 1) 0 0
                  (fnth (DecayIndexCalculator.heights
                           (column_calculator notch_column 1) None 5) 2)
                =? 0) = true)
    by (vm_compute; reflexivity).
  assert (Hn : (interpolant (column_calculator dip_column 1) 0 0
                  (fnth (DecayIndexCalculator.heights
                           (column_calculator dip_column 1) None 5) 2)
                <? 0) = true)
    by (vm_compute; reflexivity).
  destruct (calculate_decay_index_nonpositive_magnitude
              (column_calculator notch_column 1) 0 0 None 5 H2
              ltac:(vm_compute; reflexivity)) as [_ Hnotch].
  destruct (calculate_decay_index_nonpositive_magnitude
              (column_calculator dip_column 1) 0 0 None 5 H2
              ltac:(vm_compute; reflexivity)) as [_ Hdip].
  destruct (calculate_decay_index_nonpositive_magnitude
              stacked_calculator 0 0 None 5 H2
              ltac:(vm_compute; reflexivity)) as [Hstacked _].
  split; [exact Hz | split; [| split; [exact Hn | split;
    [| split; [reflexivity|]]]]].
  - destruct (Hnotch eq_refl) as (prof & Hprof & Hlen & Hall).
    destruct (Hall 2%nat ltac:(lia)) as [_ Hzero].
    destruct (Hzero Hz) as [_ Hnext].
    exists prof. split; [exact Hprof | split; [exact Hlen | split]].
    + apply Hnext; [lia | left; reflexivity].
    + apply Hnext; [lia | right; reflexivity].
  - destruct (Hdip eq_refl) as (prof & Hprof & Hlen & Hall).
    destruct (Hall 2%nat ltac:(lia)) as [Hneg _].
    destruct (Hneg Hn) as [_ Hnext].
    exists prof. split; [exact Hprof | split; [exact Hlen | split]].
    + apply Hnext; [lia | left; reflexivity].
    + apply Hnext; [lia | right; reflexivity].
  - apply Hstacked. change (3 < 4)%nat. lia.
Defined.

(** C9 as stated fails: the magnitude vanishes at sample 2, the call
    returns, and the profile holds +infinity and -infinity next to that
    sample but no NaN entry. *)
Lemma zero_magnitude_gives_infinities :
  interpolant (column_calculator notch_column 1) 0 0
    (fnth (DecayIndexCalculator.heights (column_calculator notch_column 1)
             None 5) 2) = 0 /\
  DecayIndexCalculator.calculate_decay_index
    (column_calculator notch_column 1) 0 0 None 5 =
  Ok [-0; infinity; -0; neg_infinity; -0] /\
  forallb (fun d => negb (PrimFloat.is_nan d))
    [-0; infinity; -0; neg_infinity; -0] = true.
Proof. repeat split; vm_compute; reflexivity. Qed.

(** * Further properties of the decay-index calculator *)

(** ** More binary64 facts *)

Module FloatEdge.

Lemma leb_nan_l (x y : float) : PrimFloat.is_nan x = true -> (x <=? y) = false.
Proof.
  rewrite FloatFacts.is_nan_spec, FloatAxioms.leb_spec. intros ->. reflexivity.
Qed.

Lemma leb_nan_r (x y : float) : PrimFloat.is_nan y = true -> (x <=? y) = false.
Proof.
  rewrite FloatFacts.is_nan_spec, FloatAxioms.leb_spec. intros ->.
  unfold SFleb. destruct (Prim2SF x); reflexivity.
Qed.

(** A strict inequality excludes the converse one. *)
Lemma SFltb_not_leb (a b : spec_float) : SFltb a b = true -> SFleb b a = false.
Proof.
  unfold SFltb, SFleb.
  destruct a as [sa|sa| |sa ma ea], b as [sb|sb| |sb mb eb]; simpl;
    try discriminate; try reflexivity;
    try (destruct sa; simpl; try discriminate; try reflexivity);
    try (destruct sb; simpl; try discriminate; try reflexivity).
  all: fold (Pos.compare ma mb); fold (Pos.compare mb ma).
  all: destruct (Z.compare_spec ea eb); destruct (Z.compare_spec eb ea);
    simpl; try discriminate; try reflexivity; try lia.
  all: destruct (Pos.compare_spec ma mb); destruct (Pos.compare_spec mb ma);
    simpl; try discriminate; try reflexivity; try lia.
Qed.

Lemma ltb_not_leb (x y : float) : (x <? y) = true -> (y <=? x) = false.
Proof. rewrite FloatAxioms.ltb_spec, FloatAxioms.leb_spec. apply SFltb_not_leb. Qed.

End FloatEdge.

(** ** When calculate_decay_index raises *)

Lemma length_call_interpolator (itp : RegularGridInterpolator) (x y : float)
  (zs mag : list float) :
  call_interpolator itp (map (fun _ => x) zs) (map (fun _ => y) zs) zs = Ok mag ->
  length mag = length zs.
Proof.
  unfold call_interpolator.
  destruct (grid itp) as [|nx [|ny [|nz [|? ?]]]]; try discriminate.
  destruct (_ || _); [discriminate|].
  destruct (_ && _); [|discriminate].
  intros H. injection H as <-.
  rewrite length_map, !length_combine, !length_map. lia.
Qed.

Lemma length_gradient (f zs g : list float) :
  gradient f zs = Ok g -> length g = length f /\ (2 <= length zs)%nat.
Proof.
  unfold gradient. destruct (length zs =? length f)%nat eqn:E; [|discriminate].
  simpl. destruct (diff zs) as [|d0 ds] eqn:Ed; [discriminate|].
  intros H. injection H as <-. rewrite length_map, length_seq.
  split; [reflexivity|].
  pose proof (length_diff zs) as Hd. rewrite Ed in Hd. simpl in Hd. lia.
Qed.

(** X3: whenever [calculate_decay_index] returns, [n_points] is at
    least 2 and the profile has exactly [n_points] entries. *)
Theorem calculate_decay_index_length
  (self : DecayIndexCalculator.t) (x y : float)
  (z_range : option (float * float)) (n_points : Z) (profile : list float) :
  DecayIndexCalculator.calculate_decay_index self x y z_range n_points
    = Ok profile ->
  (2 <= n_points)%Z /\ length profile = Z.to_nat n_points.
Proof.
  unfold DecayIndexCalculator.calculate_decay_index.
  destruct (Z.ltb_spec n_points 0) as [|Hn]; [discriminate|].
  set (zs := DecayIndexCalculator.heights self z_range (Z.to_nat n_points)).
  assert (Hz : length zs = Z.to_nat n_points) by apply length_linspace.
  destruct (call_interpolator _ _ _ zs) as [mag|e] eqn:Hc; [|discriminate].
  apply length_call_interpolator in Hc. simpl.
  destruct (negb _); [discriminate|].
  destruct (gradient (map Libm.log mag) zs) as [g|e] eqn:Hg; [|discriminate].
  apply length_gradient in Hg. destruct Hg as [Hg Htwo].
  rewrite length_map in Hg. simpl.
  intros H. injection H as <-.
  rewrite length_map, length_combine. lia.
Qed.

Lemma calculate_decay_index_length_witness :
  DecayIndexCalculator.calculate_decay_index
    (column_calculator notch_column 1) 1 1 (Some (0.5, 3.5)) 7 =
  Ok (profile_of (DecayIndexCalculator.calculate_decay_index
                    (column_calculator notch_column 1) 1 1 (Some (0.5, 3.5)) 7)) /\
  (2 <= 7)%Z /\
  length (profile_of (DecayIndexCalculator.calculate_decay_index
                        (column_calculator notch_column 1) 1 1
                        (Some (0.5, 3.5)) 7)) = Z.to_nat 7.
Proof.
  assert (H : DecayIndexCalculator.calculate_decay_index
                (column_calculator notch_column 1) 1 1 (Some (0.5, 3.5)) 7 =
              Ok (profile_of (DecayIndexCalculator.calculate_decay_index
                                (column_calculator notch_column 1) 1 1
                                (Some (0.5, 3.5)) 7)))
    by (vm_compute; reflexivity).
  split; [exact H|].
  exact (calculate_decay_index_length _ _ _ _ _ _ H).
Defined.

(** X1: with fewer than two samples [calculate_decay_index] raises,
    whatever the calculator, the query point and the z-range. *)
Theorem calculate_decay_index_needs_two_samples
  (self : DecayIndexCalculator.t) (x y : float)
  (z_range : option (float * float)) (n_points : Z) :
  (n_points < 2)%Z ->
  raises (DecayIndexCalculator.calculate_decay_index self x y z_range n_points).
Proof.
  intros Hn.
  destruct (DecayIndexCalculator.calculate_decay_index self x y z_range n_points)
    as [p|e] eqn:E; [|now exists e].
  apply calculate_decay_index_length in E. lia.
Qed.

Lemma calculate_decay_index_needs_two_samples_witness :
  (1 < 2)%Z /\
  raises (DecayIndexCalculator.calculate_decay_index
            (column_calculator exp_column 1) 0 0 None 1).
Proof.
  split; [lia|].
  exact (calculate_decay_index_needs_two_samples
           (column_calculator exp_column 1) 0 0 None 1 ltac:(lia)).
Defined.

Lemma in_bounds_constant (n : nat) (c : float) (zs : list float) :
  zs <> [] -> in_bounds n (map (fun _ => c) zs) = on_axis n c.
Proof.
  unfold in_bounds, on_axis. intros Hne.
  assert (H : forall f : float -> bool,
             forallb f (map (fun _ => c) zs) = f c).
  { intros f. destruct zs as [|z zs]; [contradiction|]. simpl.
    clear Hne. induction zs as [|z' zs IH]; simpl.
    - apply andb_true_r.
    - destruct (f c); [exact IH | reflexivity]. }
  rewrite !H. reflexivity.
Qed.

(** X2: a query column whose x or y lies off the horizontal grid (NaN
    included) makes [calculate_decay_index] raise for every z-range and
    every [n_points], and [find_critical_height] raise as well: no
    sentinel is returned for it. *)
Theorem query_outside_grid_raises
  (self : DecayIndexCalculator.t) (x y : float)
  (z_range : option (float * float)) (n_points : Z)
  (critical_index uncertainty : float) :
  on_axis (nth 0 (grid (DecayIndexCalculator.bh_interpolator self)) 0%nat) x
    = false \/
  on_axis (nth 1 (grid (DecayIndexCalculator.bh_interpolator self)) 0%nat) y
    = false ->
  raises (DecayIndexCalculator.calculate_decay_index self x y z_range n_points)
  /\
  raises (DecayIndexCalculator.find_critical_height self x y
            critical_index uncertainty).
Proof.
  intros Hout.
  assert (Hall : forall zr n,
    raises (DecayIndexCalculator.calculate_decay_index self x y zr n)).
  { intros zr n.
    destruct (DecayIndexCalculator.calculate_decay_index self x y zr n)
      as [p|e] eqn:E; [|now exists e].
    exfalso. pose proof (calculate_decay_index_length _ _ _ _ _ _ E) as [Hn _].
    revert E. unfold DecayIndexCalculator.calculate_decay_index.
    destruct (Z.ltb_spec n 0) as [|_]; [lia|].
    set (zs := DecayIndexCalculator.heights self zr (Z.to_nat n)).
    assert (Hz : zs <> []).
    { intros Hnil. pose proof (length_linspace
        (fst (DecayIndexCalculator.z_range_or_default self zr))
        (snd (DecayIndexCalculator.z_range_or_default self zr)) (Z.to_nat n))
        as Hl. fold (DecayIndexCalculator.heights self zr (Z.to_nat n)) in Hl.
      fold zs in Hl. rewrite Hnil in Hl. simpl in Hl. lia. }
    unfold call_interpolator.
    destruct (grid (DecayIndexCalculator.bh_interpolator self))
      as [|nx [|ny [|nz [|? ?]]]]; try discriminate.
    simpl in Hout.
    destruct (_ || _); [discriminate|].
    rewrite !in_bounds_constant by exact Hz.
    destruct Hout as [-> | ->]; simpl; try discriminate.
    rewrite andb_false_r. discriminate. }
  split; [apply Hall|].
  unfold DecayIndexCalculator.find_critical_height.
  destruct (Hall None 100%Z) as [e ->]. now exists e.
Qed.

Lemma query_outside_grid_raises_witness :
  (on_axis (nth 0 (grid (DecayIndexCalculator.bh_interpolator
                           (column_calculator exp_column 1))) 0%nat) 2 = false \/
   on_axis (nth 1 (grid (DecayIndexCalculator.bh_interpolator
                           (column_calculator exp_column 1))) 0%nat) 0 = false) /\
  raises (DecayIndexCalculator.calculate_decay_index
            (column_calculator exp_column 1) 2 0 (Some (0, 10)) 20) /\
  raises (DecayIndexCalculator.find_critical_height
            (column_calculator exp_column 1) 2 0 1.5 0.1).
Proof.
  assert (H : on_axis (nth 0 (grid (DecayIndexCalculator.bh_interpolator
                 (column_calculator exp_column 1))) 0%nat) 2 = false \/
              on_axis (nth 1 (grid (DecayIndexCalculator.bh_interpolator
                 (column_calculator exp_column 1))) 0%nat) 0 = false)
    by (left; reflexivity).
  split; [exact H|].
  exact (query_outside_grid_raises (column_calculator exp_column 1) 2 0
           (Some (0, 10)) 20 1.5 0.1 H).
Defined.

(** ** What find_critical_height can return *)

(** X4: whatever the vertical extent of the volume, a result of
    [find_critical_height] carries a profile of exactly 100 samples, and
    its critical height is either the +infinity sentinel (with range
    (+infinity, +infinity)) or [i * grid_spacing] for the index [i < 100]
    of a sample inside the tolerance band. *)
Theorem find_critical_height_result
  (self : DecayIndexCalculator.t) (x y critical_index uncertainty : float)
  (r : DecayIndexResult) :
  DecayIndexCalculator.find_critical_height self x y critical_index uncertainty
    = Ok r ->
  length (decay_index r) = 100%nat /\
  ((critical_height r = infinity /\
    critical_height_range r = (infinity, infinity)) \/
   exists i, (i < 100)%nat /\
     qualifies critical_index uncertainty (decay_index r) i /\
     critical_height r = sample_height self i).
Proof.
  destruct (DecayIndexCalculator.calculate_decay_index self x y None 100)
    as [prof|e] eqn:Hc.
  2:{ unfold DecayIndexCalculator.find_critical_height. rewrite Hc.
      discriminate. }
  pose proof (calculate_decay_index_length _ _ _ _ _ _ Hc) as [_ Hlen].
  change (Z.to_nat 100) with 100%nat in Hlen.
  rewrite (find_critical_height_unfold self x y critical_index uncertainty
             prof Hc).
  destruct (DecayIndexCalculator.where_ _ prof) as [|first rest] eqn:Hw;
    intros H; injection H as <-; simpl.
  - split; [exact Hlen | left; split; reflexivity].
  - split; [exact Hlen | right]. apply filter_seq_head in Hw.
    destruct Hw as (Hr & Hb & _). exists first.
    split; [lia | split; [split; [lia | exact Hb] |]].
    apply fnth_map_seq. lia.
Qed.

Lemma find_critical_height_result_witness :
  DecayIndexCalculator.find_critical_height
    (column_calculator exp_column 0.72) 1 0 2.5 0.25 =
  Ok (mk_result
        (profile_of (DecayIndexCalculator.calculate_decay_index
                       (column_calculator exp_column 0.72) 1 0 None 100))
        (23 * 0.72) (23 * 0.72 - 0.25 * 0.72, 27 * 0.72 + 0.25 * 0.72)) /\
  length (profile_of (DecayIndexCalculator.calculate_decay_index
                        (column_calculator exp_column 0.72) 1 0 None 100))
    = 100%nat.
Proof.
  assert (H : DecayIndexCalculator.find_critical_height
                (column_calculator exp_column 0.72) 1 0 2.5 0.25 =
              Ok (mk_result
                    (profile_of (DecayIndexCalculator.calculate_decay_index
                       (column_calculator exp_column 0.72) 1 0 None 100))
                    (23 * 0.72)
                    (23 * 0.72 - 0.25 * 0.72, 27 * 0.72 + 0.25 * 0.72)))
    by (vm_compute; reflexivity).
  split; [exact H|].
  exact (proj1 (find_critical_height_result _ _ _ _ _ _ H)).
Defined.

(** X5: when the critical index or the uncertainty is NaN no sample can
    lie in the band, so every call that obtains a profile returns the
    +infinity sentinel. *)
Theorem find_critical_height_nan_band
  (self : DecayIndexCalculator.t) (x y critical_index uncertainty : float)
  (profile : list float) :
  DecayIndexCalculator.calculate_decay_index self x y None 100 = Ok profile ->
  PrimFloat.is_nan critical_index = true \/
  PrimFloat.is_nan uncertainty = true ->
  DecayIndexCalculator.find_critical_height self x y critical_index uncertainty
  = Ok (mk_result profile infinity (infinity, infinity)).
Proof.
  intros Hc Hnan.
  apply (find_critical_height_no_crossing self x y critical_index uncertainty
           profile Hc).
  intros i _. unfold DecayIndexCalculator.in_band, geb.
  rewrite FloatEdge.leb_nan_l; [reflexivity|].
  destruct Hnan as [H|H];
    [apply FloatFacts.nan_sub_l | apply FloatFacts.nan_sub_r]; exact H.
Qed.

Lemma find_critical_height_nan_band_witness :
  DecayIndexCalculator.calculate_decay_index
    (column_calculator exp_column 1) 0 0 None 100 = Ok exp_profile /\
  (PrimFloat.is_nan 1.5 = true \/ PrimFloat.is_nan nan = true) /\
  DecayIndexCalculator.find_critical_height
    (column_calculator exp_column 1) 0 0 1.5 nan =
  Ok (mk_result exp_profile infinity (infinity, infinity)).
Proof.
  assert (H1 : DecayIndexCalculator.calculate_decay_index
                 (column_calculator exp_column 1) 0 0 None 100 =
               Ok exp_profile) by (vm_compute; reflexivity).
  assert (H2 : PrimFloat.is_nan 1.5 = true \/ PrimFloat.is_nan nan = true)
    by (right; reflexivity).
  split; [exact H1 | split; [exact H2 |]].
  exact (find_critical_height_nan_band _ _ _ _ _ _ H1 H2).
Defined.

(** * Further properties of the PIL detector *)

Lemma bnth_amap_false (f : float -> bool) (a : ndarray float) (i : nat) :
  (forall d, In d (flat a) -> f d = false) -> bnth (amap f a) i = false.
Proof.
  intros H. destruct (bnth (amap f a) i) eqn:E; [|reflexivity].
  apply bnth_amap_true in E. destruct E as [Hi Hf].
  rewrite H in Hf; [discriminate|]. now apply nth_In.
Qed.

Section PILFurther.

Import PILDetector.

Variable gaussian_filter : ndarray float -> float -> ndarray float.
Variable canny : ndarray bool -> float -> ndarray bool.
Variable dilation : ndarray bool -> nat -> ndarray bool.
Variable thin : ndarray bool -> ndarray bool.

(** An image without set pixels has no edges, and dilating or thinning
    a mask without set pixels sets none. *)
Hypothesis canny_blank : forall im sigma, blank im -> blank (canny im sigma).
Hypothesis dilation_blank : forall e size, blank e -> blank (dilation e size).
Hypothesis thin_removes :
  forall m i, bnth (thin m) i = true -> bnth m i = true.

(** X6: when [neg_thresh < pos_thresh] no pixel lies in both polarity
    maps, with or without smoothing. *)
Theorem polarity_maps_disjoint
  (self : t) (pos_thresh neg_thresh : float)
  (apply_gaussian : bool) (sigma : float) (self' : t) (p n : ndarray bool) :
  (neg_thresh <? pos_thresh) = true ->
  identify_polarity_regions gaussian_filter self pos_thresh neg_thresh
    apply_gaussian sigma = Ok self' ->
  pos_map self' = Some p -> neg_map self' = Some n ->
  forall i, bnth p i && bnth n i = false.
Proof.
  intros Hlt Hid Hp Hn i. injection Hid as <-. simpl in Hp, Hn.
  injection Hp as <-. injection Hn as <-.
  destruct (bnth (amap _ _) i) eqn:E1; [|reflexivity].
  destruct (bnth (amap (fun d => d <=? neg_thresh) _) i) eqn:E2; [|reflexivity].
  apply bnth_amap_true in E1, E2. destruct E1 as [_ E1], E2 as [_ E2].
  unfold geb in E1.
  pose proof (FloatFacts.leb_trans _ _ _ E1 E2) as Hle.
  rewrite (FloatEdge.ltb_not_leb _ _ Hlt) in Hle. discriminate.
Qed.

(** X7: a pixel whose value is NaN when the thresholds are applied lies
    in neither polarity map, whatever the thresholds. *)
Theorem nan_pixel_in_no_polarity_map
  (self : t) (pos_thresh neg_thresh : float)
  (apply_gaussian : bool) (sigma : float) (self' : t) (p n : ndarray bool)
  (i : nat) :
  identify_polarity_regions gaussian_filter self pos_thresh neg_thresh
    apply_gaussian sigma = Ok self' ->
  pos_map self' = Some p -> neg_map self' = Some n ->
  PrimFloat.is_nan
    (fnth (flat (thresholded gaussian_filter self apply_gaussian sigma)) i)
    = true ->
  bnth p i = false /\ bnth n i = false.
Proof.
  intros Hid Hp Hn Hnan. injection Hid as <-. simpl in Hp, Hn.
  injection Hp as <-. injection Hn as <-.
  split.
  - destruct (bnth (amap _ _) i) eqn:E; [|reflexivity].
    apply bnth_amap_true in E. destruct E as [_ E]. unfold geb in E.
    rewrite (FloatEdge.leb_nan_r _ _ Hnan) in E. discriminate.
  - destruct (bnth (amap _ _) i) eqn:E; [|reflexivity].
    apply bnth_amap_true in E. destruct E as [_ E].
    rewrite (FloatEdge.leb_nan_l _ _ Hnan) in E. discriminate.
Qed.

(** X8: for a fixed magnetogram and fixed smoothing, raising
    [neg_thresh] from [t1] to [t2] never decreases the number of true
    pixels of the negative map. *)
Theorem negative_map_isotone
  (self : t) (apply_gaussian : bool) (sigma : float)
  (t1 t2 pos1 pos2 : float) :
  (t1 <=? t2) = true ->
  exists s1 s2 n1 n2,
    identify_polarity_regions gaussian_filter self pos1 t1
      apply_gaussian sigma = Ok s1 /\
    identify_polarity_regions gaussian_filter self pos2 t2
      apply_gaussian sigma = Ok s2 /\
    neg_map s1 = Some n1 /\ neg_map s2 = Some n2 /\
    (count_true n1 <= count_true n2)%nat.
Proof.
  intros Hle. eexists _, _, _, _.
  split; [reflexivity | split; [reflexivity |]].
  split; [reflexivity | split; [reflexivity |]].
  apply count_true_amap_mono. intros d Hd.
  exact (FloatFacts.leb_trans d t1 t2 Hd Hle).
Qed.

Lemma logical_and_blank_l (a b c : ndarray bool) :
  logical_and a b = Ok c -> blank a -> blank c.
Proof.
  intros H Ha i. apply logical_and_ok in H. destruct H as (_ & _ & H).
  rewrite H, Ha. reflexivity.
Qed.

Lemma logical_and_blank_r (a b c : ndarray bool) :
  logical_and a b = Ok c -> blank b -> blank c.
Proof.
  intros H Hb i. apply logical_and_ok in H. destruct H as (_ & _ & H).
  rewrite H, Hb. apply andb_false_r.
Qed.

(** X9: a magnetogram of one polarity has no PIL.  When no pixel
    reaches [pos_thresh], or none is as low as [neg_thresh], that
    polarity map has no true pixel and every map [extract_pil] then
    returns has no true pixel either. *)
Theorem single_polarity_has_no_pil
  (self : t) (pos_thresh neg_thresh : float)
  (apply_gaussian : bool) (sigma : float) (self1 : t)
  (thinning : bool) (pil : ndarray bool) (self2 : t) :
  (forall d,
     In d (flat (thresholded gaussian_filter self apply_gaussian sigma)) ->
     (pos_thresh <=? d) = false) \/
  (forall d,
     In d (flat (thresholded gaussian_filter self apply_gaussian sigma)) ->
     (d <=? neg_thresh) = false) ->
  identify_polarity_regions gaussian_filter self pos_thresh neg_thresh
    apply_gaussian sigma = Ok self1 ->
  extract_pil canny dilation thin self1 thinning = Ok (pil, self2) ->
  blank pil /\ count_true pil = 0%nat.
Proof.
  intros Hone Hid Hex. injection Hid as <-.
  assert (Hblank : blank pil).
  { revert Hex. unfold extract_pil, detect_edges, canny_checked, dilate_edges.
    cbn [pos_map neg_map data].
    match goal with
    | |- context [(size ?a =? 0)%nat] =>
        destruct (size a =? 0)%nat; [discriminate|]
    end.
    match goal with
    | |- context [(ndim ?a =? 2)%nat] =>
        destruct (ndim a =? 2)%nat; [|discriminate]
    end. cbn [bind].
    match goal with
    | |- context [(size ?a =? 0)%nat] =>
        destruct (size a =? 0)%nat; [discriminate|]
    end.
    match goal with
    | |- context [(ndim ?a =? 2)%nat] =>
        destruct (ndim a =? 2)%nat; [|discriminate]
    end. cbn [bind fst snd].
    destruct (logical_and _ _) as [both|e] eqn:Hb; [|discriminate]. simpl.
    destruct (logical_and both _) as [raw|e] eqn:Hr; [|discriminate]. simpl.
    intros H. injection H as <- _.
    assert (Hboth : blank both).
    { destruct Hone as [Hpos|Hneg].
      - apply (logical_and_blank_l _ _ _ Hb).
        apply dilation_blank, canny_blank. intros i.
        apply bnth_amap_false. exact Hpos.
      - apply (logical_and_blank_r _ _ _ Hb).
        apply dilation_blank, canny_blank. intros i.
        apply bnth_amap_false. exact Hneg. }
    pose proof (logical_and_blank_l _ _ _ Hr Hboth) as Hraw.
    destruct thinning; [|exact Hraw].
    intros i. destruct (bnth (thin raw) i) eqn:E; [|reflexivity].
    apply thin_removes in E. rewrite Hraw in E. discriminate. }
  split; [exact Hblank|].
  unfold count_true. apply length_zero_iff_nil, filter_nil_iff.
  intros b Hb. destruct (In_nth _ _ false Hb) as (i & _ & Hi).
  rewrite <- Hi. apply Hblank.
Qed.

End PILFurther.

(** ** The further properties on the example magnetograms *)

Lemma reference_pixel_blank (a : ndarray bool) (r c : Z) :
  blank a -> Reference.pixel a r c = false.
Proof.
  intros Ha. unfold Reference.pixel.
  change (nth (Z.to_nat r * Reference.width a + Z.to_nat c) (flat a) false)
    with (bnth a (Z.to_nat r * Reference.width a + Z.to_nat c)).
  rewrite Ha. apply andb_false_r.
Qed.

Lemma reference_pointwise_blank (a : ndarray bool) (f : Z -> Z -> bool) :
  (forall r c, f r c = false) -> blank (Reference.pointwise a f).
Proof.
  intros Hf i. unfold bnth, Reference.pointwise. simpl.
  rewrite nth_map_seq_bool. destruct (i <? length (flat a))%nat;
    [apply Hf | reflexivity].
Qed.

Lemma existsb_false {A : Type} (f : A -> bool) (l : list A) :
  (forall a, f a = false) -> existsb f l = false.
Proof.
  intros Hf. induction l as [|a l IH]; [reflexivity|].
  simpl. rewrite Hf, IH. reflexivity.
Qed.

Lemma reference_edges_blank (im : ndarray bool) (sigma : float) :
  blank im -> blank (Reference.edges im sigma).
Proof.
  intros Ha. apply reference_pointwise_blank. intros r c.
  rewrite reference_pixel_blank by exact Ha. reflexivity.
Qed.

Lemma reference_dilate_blank (e : ndarray bool) (size : nat) :
  blank e -> blank (Reference.dilate e size).
Proof.
  intros Ha. apply reference_pointwise_blank. intros r c.
  apply existsb_false. intros d. apply reference_pixel_blank. exact Ha.
Qed.

Lemma polarity_maps_disjoint_witness :
  (-100 <? 100) = true /\
  PILDetector.identify_polarity_regions Reference.no_smoothing
    (PILDetector.init split_magnetogram) 100 (-100) false 3 =
    Ok split_detector /\
  forall i,
    bnth (amap (fun d => geb d 100) split_magnetogram) i &&
    bnth (amap (fun d => d <=? -100) split_magnetogram) i = false.
Proof.
  split; [reflexivity | split; [reflexivity |]].
  exact (polarity_maps_disjoint Reference.no_smoothing
           (PILDetector.init split_magnetogram) 100 (-100) false 3
           split_detector _ _ eq_refl eq_refl eq_refl eq_refl).
Defined.

Lemma nan_pixel_in_no_polarity_map_witness :
  PILDetector.identify_polarity_regions Reference.no_smoothing
    (PILDetector.init split_magnetogram) 100 (-100) false 3 =
    Ok split_detector /\
  PrimFloat.is_nan (fnth (flat split_magnetogram) 9) = true /\
  bnth (amap (fun d => geb d 100) split_magnetogram) 9 = false /\
  bnth (amap (fun d => d <=? -100) split_magnetogram) 9 = false.
Proof.
  split; [reflexivity | split; [reflexivity |]].
  exact (nan_pixel_in_no_polarity_map Reference.no_smoothing
           (PILDetector.init split_magnetogram) 100 (-100) false 3
           split_detector _ _ 9%nat eq_refl eq_refl eq_refl eq_refl).
Defined.

Lemma negative_map_isotone_witness :
  (-200 <=? -100) = true /\
  exists s1 s2 n1 n2,
    PILDetector.identify_polarity_regions Reference.no_smoothing
      (PILDetector.init split_magnetogram) 100 (-200) false 3 = Ok s1 /\
    PILDetector.identify_polarity_regions Reference.no_smoothing
      (PILDetector.init split_magnetogram) 100 (-100) false 3 = Ok s2 /\
    PILDetector.neg_map s1 = Some n1 /\ PILDetector.neg_map s2 = Some n2 /\
    (count_true n1 <= count_true n2)%nat.
Proof.
  split; [reflexivity|].
  exact (negative_map_isotone Reference.no_smoothing
           (PILDetector.init split_magnetogram) false 3 (-200) (-100) 100 100
           eq_refl).
Defined.

Lemma all_above (t : float) (l : list float) :
  forallb (fun d => negb (d <=? t)) l = true ->
  forall d, In d l -> (d <=? t) = false.
Proof.
  intros H d Hd. rewrite forallb_forall in H.
  apply negb_true_iff. exact (H d Hd).
Qed.

Lemma single_polarity_has_no_pil_witness :
  (forall d, In d (flat positive_magnetogram) -> (d <=? -100) = false) /\
  exists self1 pil self2,
    PILDetector.identify_polarity_regions Reference.no_smoothing
      (PILDetector.init positive_magnetogram) 100 (-100) false 3 = Ok self1 /\
    PILDetector.extract_pil Reference.edges Reference.dilate
      Reference.thin_rows self1 true = Ok (pil, self2) /\
    blank pil /\ count_true pil = 0%nat.
Proof.
  assert (H1 : forall d, In d (flat positive_magnetogram) ->
                 (d <=? -100) = false)
    by (apply all_above; reflexivity).
  split; [exact H1|].
  eexists _, _, _. split; [reflexivity|].
  assert (H2 : PILDetector.extract_pil Reference.edges Reference.dilate
                 Reference.thin_rows
                 (PILDetector.mk positive_magnetogram
                    (Some (amap (fun d => geb d 100) positive_magnetogram))
                    (Some (amap (fun d => d <=? -100) positive_magnetogram))
                    None) true =
               Ok (map_of (PILDetector.extract_pil Reference.edges
                             Reference.dilate Reference.thin_rows
                             (PILDetector.mk positive_magnetogram
                                (Some (amap (fun d => geb d 100)
                                         positive_magnetogram))
                                (Some (amap (fun d => d <=? -100)
                                         positive_magnetogram))
                                None) true),
                   PILDetector.mk positive_magnetogram
                     (Some (amap (fun d => geb d 100) positive_magnetogram))
                     (Some (amap (fun d => d <=? -100) positive_magnetogram))
                     (Some (map_of (PILDetector.extract_pil Reference.edges
                             Reference.dilate Reference.thin_rows
                             (PILDetector.mk positive_magnetogram
                                (Some (amap (fun d => geb d 100)
                                         positive_magnetogram))
                                (Some (amap (fun d => d <=? -100)
                                         positive_magnetogram))
                                None) true)))))
    by (vm_compute; reflexivity).
  split; [exact H2|].
  exact (single_polarity_has_no_pil Reference.no_smoothing Reference.edges
           Reference.dilate Reference.thin_rows
           reference_edges_blank reference_dilate_blank thin_rows_removes
           (PILDetector.init positive_magnetogram) 100 (-100) false 3 _
           true _ _ (or_intror H1) eq_refl H2).
Defined.

(** * find_flare_pil *)

(** Python's [max]: the item returned is the first one with the largest
    key, and every key was computed. *)
Lemma py_max_from_spec {A : Type} (key : A -> result nat) (rest : list A) :
  forall (pre mid : list A) (best : A) (bk : nat) (a : A),
  key best = Ok bk ->
  (forall b kb, In b pre -> key b = Ok kb -> (kb < bk)%nat) ->
  (forall b kb, In b mid -> key b = Ok kb -> (kb <= bk)%nat) ->
  py_max_from key best bk rest = Ok a ->
  exists pre' post' ka,
    pre ++ best :: mid ++ rest = pre' ++ a :: post' /\
    key a = Ok ka /\
    (forall b kb, In b pre' -> key b = Ok kb -> (kb < ka)%nat) /\
    (forall b kb, In b post' -> key b = Ok kb -> (kb <= ka)%nat).
Proof.
  induction rest as [|c rest IH]; intros pre mid best bk a Hbest Hpre Hmid.
  - simpl. intros H. injection H as <-.
    exists pre, mid, bk. rewrite app_nil_r. auto.
  - simpl. destruct (key c) as [k|e] eqn:Hc; [|discriminate]. simpl.
    destruct (Nat.ltb_spec bk k) as [Hlt|Hge]; intros H.
    + destruct (IH (pre ++ best :: mid) [] c k a Hc) as (pre' & post' & ka & Heq & Hrest).
      * intros b kb Hb Hkb. apply in_app_or in Hb.
        destruct Hb as [Hb|[<-|Hb]].
        -- specialize (Hpre b kb Hb Hkb). lia.
        -- rewrite Hbest in Hkb. injection Hkb as <-. exact Hlt.
        -- specialize (Hmid b kb Hb Hkb). lia.
      * intros b kb [].
      * exact H.
      * exists pre', post', ka. split; [|exact Hrest].
        rewrite <- Heq. rewrite <- !app_assoc. reflexivity.
    + destruct (IH pre (mid ++ [c]) best bk a Hbest Hpre) as (pre' & post' & ka & Heq & Hrest).
      * intros b kb Hb Hkb. apply in_app_or in Hb.
        destruct Hb as [Hb|[<-|[]]].
        -- exact (Hmid b kb Hb Hkb).
        -- rewrite Hc in Hkb. injection Hkb as <-. exact Hge.
      * exact H.
      * exists pre', post', ka. split; [|exact Hrest].
        rewrite <- Heq. rewrite <- !app_assoc. reflexivity.
Qed.

Lemma py_max_spec {A : Type} (key : A -> result nat) (items : list A) (a : A) :
  py_max key items = Ok a ->
  exists pre post ka,
    items = pre ++ a :: post /\
    key a = Ok ka /\
    (forall b kb, In b pre -> key b = Ok kb -> (kb < ka)%nat) /\
    (forall b kb, In b post -> key b = Ok kb -> (kb <= ka)%nat).
Proof.
  destruct items as [|b rest]; [discriminate|]. simpl.
  destruct (key b) as [k|e] eqn:Hb; [|discriminate]. simpl. intros H.
  destruct (py_max_from_spec key rest [] [] b k a Hb) as (pre & post & ka & Heq & Hrest);
    try (intros ? ? []); [exact H|].
  exists pre, post, ka. split; [exact Heq | exact Hrest].
Qed.

(** The pixels set by [paint] on a two-dimensional shape are the
    pixels of the contour. *)
Lemma paint_pixels (h w : nat) (c : contour) (m : ndarray bool) (i : nat) :
  FlarePIL.paint [h; w] c = Ok m -> bnth m i = true ->
  exists p, In p c /\ i = pixel_index [h; w] p.
Proof.
  unfold FlarePIL.paint. destruct (forallb _ c); [|discriminate].
  intros H. injection H as <-. unfold bnth. cbn [flat fold_right].
  rewrite nth_map_seq_bool. destruct (i <? h * w * 1)%nat; [|discriminate].
  change (fst (Nat.divmod i 0 0 0)) with (i / 1)%nat.
  rewrite Nat.div_1_r. intros Hex. apply existsb_exists in Hex.
  destruct Hex as (p & Hp & Heq). apply Nat.eqb_eq in Heq.
  exists p. split; [exact Hp|]. unfold pixel_index. cbn [nth]. lia.
Qed.

Lemma paint_shape (s : list nat) (c : contour) (m : ndarray bool) :
  FlarePIL.paint s c = Ok m -> shape m = s.
Proof.
  unfold FlarePIL.paint. destruct s as [|h [|w rest]]; try discriminate.
  destruct (forallb _ c); [|discriminate].
  intros H. injection H as <-. reflexivity.
Qed.

Section FlarePILProperties.

Import FlarePIL.

Variable gaussian_filter : ndarray float -> float -> ndarray float.
Variable canny : ndarray bool -> float -> ndarray bool.
Variable dilation : ndarray bool -> nat -> ndarray bool.
Variable thin : ndarray bool -> ndarray bool.
Variable find_contours : ndarray bool -> outcome (list contour).
Variable sum_broadcast : ndarray bool -> ndarray bool -> result nat.

Hypothesis thin_removes :
  forall m i, bnth (thin m) i = true -> bnth m i = true.
(** The points of a contour are set pixels of the image, and an image
    without set pixels has no contour. *)
Hypothesis contours_on_image :
  forall image contours c p,
    find_contours image = Returned contours -> In c contours -> In p c ->
    bnth image (pixel_index (shape image) p) = true.
Hypothesis contours_blank :
  forall image, ndim image = 2%nat -> blank image ->
    find_contours image = Returned [].

Let flare := find_flare_pil canny dilation thin find_contours sum_broadcast.
Let overlap := count_ribbon_overlap sum_broadcast.

Lemma ensure_pil_stores (self self1 : PILDetector.t) (pil : ndarray bool) :
  ensure_pil canny dilation thin self = Ok (pil, self1) ->
  PILDetector.pil_map self1 = Some pil.
Proof.
  unfold ensure_pil. destruct (PILDetector.pil_map self) as [m|] eqn:Hm.
  - intros H. injection H as <- <-. exact Hm.
  - unfold PILDetector.extract_pil.
    destruct (PILDetector.detect_edges canny self 1) as [edges|e];
      [|discriminate]. simpl.
    destruct (logical_and _ _) as [both|e]; [|discriminate]. simpl.
    destruct (logical_and both _) as [raw|e]; [|discriminate]. simpl.
    intros H. injection H as <- <-. reflexivity.
Qed.

(** What a returned flare PIL is made of. *)
Lemma find_flare_pil_returned
  (self : PILDetector.t) (ribbon_map m : ndarray bool) (self1 : PILDetector.t) :
  flare self ribbon_map = (Returned m, self1) ->
  exists pil,
    PILDetector.pil_map self1 = Some pil /\
    ((find_contours pil = Returned [] /\ m = zeros_like pil) \/
     exists pre c post k fpil,
       find_contours pil = Returned (pre ++ c :: post) /\
       overlap pil ribbon_map c = Ok k /\
       (forall b kb, In b pre -> overlap pil ribbon_map b = Ok kb ->
          (kb < k)%nat) /\
       (forall b kb, In b post -> overlap pil ribbon_map b = Ok kb ->
          (kb <= k)%nat) /\
       paint (shape pil) c = Ok fpil /\ ndim pil = 2%nat /\ m = thin fpil).
Proof.
  unfold flare, find_flare_pil.
  destruct (ensure_pil canny dilation thin self) as [[pil s1]|e] eqn:He;
    [|discriminate].
  pose proof (ensure_pil_stores _ _ _ He) as Hstored.
  destruct (find_contours pil) as [[|c0 cs]|f] eqn:Hc; [| |discriminate].
  - intros H. injection H as <- <-. exists pil.
    split; [exact Hstored | left; split; [exact Hc | reflexivity]].
  - destruct (py_max _ (c0 :: cs)) as [c|e] eqn:Hmax; [|discriminate].
    simpl. destruct (paint (shape pil) c) as [fpil|e] eqn:Hp; [|discriminate].
    simpl. unfold thin_checked.
    destruct (Nat.eqb_spec (ndim fpil) 2) as [Hdim|]; [|discriminate].
    simpl. intros H. injection H as <- <-. exists pil.
    split; [exact Hstored | right].
    apply py_max_spec in Hmax.
    destruct Hmax as (pre & post & k & Heq & Hk & Hpre & Hpost).
    exists pre, c, post, k, fpil.
    split; [rewrite <- Heq; exact Hc|].
    split; [exact Hk | split; [exact Hpre | split; [exact Hpost|]]].
    split; [exact Hp | split; [|reflexivity]].
    unfold ndim in *. rewrite <- (paint_shape _ _ _ Hp). exact Hdim.
Qed.

(** X12: when [find_flare_pil] returns a map built from a contour, that
    contour has the largest ribbon overlap of all contours and is the
    first one with that overlap; every true pixel of the returned map
    is a pixel of that contour. *)
Theorem find_flare_pil_takes_first_best_contour
  (self : PILDetector.t) (ribbon_map m : ndarray bool) (self1 : PILDetector.t)
  (pil : ndarray bool) (c0 : contour) (cs : list contour) :
  flare self ribbon_map = (Returned m, self1) ->
  PILDetector.pil_map self1 = Some pil ->
  find_contours pil = Returned (c0 :: cs) ->
  exists pre c post k,
    c0 :: cs = pre ++ c :: post /\
    overlap pil ribbon_map c = Ok k /\
    (forall b kb, In b pre -> overlap pil ribbon_map b = Ok kb -> (kb < k)%nat) /\
    (forall b kb, In b post -> overlap pil ribbon_map b = Ok kb -> (kb <= k)%nat) /\
    forall i, bnth m i = true ->
      exists p, In p c /\ i = pixel_index (shape pil) p.
Proof.
  intros Hf Hstored Hcs. apply find_flare_pil_returned in Hf.
  destruct Hf as (pil' & Hs' & Hcase).
  rewrite Hstored in Hs'. injection Hs' as <-.
  destruct Hcase as [[Hnil _]|(pre & c & post & k & fpil & Hc & Hk & Hpre & Hpost & Hp & Hdim & ->)].
  { rewrite Hcs in Hnil. discriminate. }
  rewrite Hcs in Hc. injection Hc as Hc.
  exists pre, c, post, k.
  split; [exact Hc | split; [exact Hk | split; [exact Hpre | split; [exact Hpost|]]]].
  intros i Hi. apply thin_removes in Hi.
  unfold ndim in Hdim.
  destruct (shape pil) as [|h [|w [|? ?]]] eqn:Hs; try discriminate.
  exact (paint_pixels h w c fpil i Hp Hi).
Qed.

(** X13: every true pixel of the map [find_flare_pil] returns is a true
    pixel of the PIL map it worked on. *)
Theorem flare_pil_within_pil
  (self : PILDetector.t) (ribbon_map m : ndarray bool) (self1 : PILDetector.t) :
  flare self ribbon_map = (Returned m, self1) ->
  exists pil,
    PILDetector.pil_map self1 = Some pil /\
    forall i, bnth m i = true -> bnth pil i = true.
Proof.
  intros Hf. apply find_flare_pil_returned in Hf.
  destruct Hf as (pil & Hs & Hcase). exists pil. split; [exact Hs|].
  destruct Hcase as [[_ ->]|(pre & c & post & k & fpil & Hc & _ & _ & _ & Hp & Hdim & ->)].
  - intros i Hi. unfold bnth, zeros_like in Hi. simpl in Hi.
    exfalso. revert i Hi. induction (flat pil) as [|b l IH]; intros [|i];
      simpl; try discriminate. apply IH.
  - intros i Hi. apply thin_removes in Hi.
    unfold ndim in Hdim.
    destruct (shape pil) as [|h [|w [|? ?]]] eqn:Hs'; try discriminate.
    destruct (paint_pixels h w c fpil i Hp Hi) as (p & Hin & ->).
    rewrite <- Hs'.
    apply (contours_on_image pil (pre ++ c :: post) c p Hc);
      [apply in_elt | exact Hin].
Qed.

(** X11: when the PIL map has no true pixel the result is an all-false
    map of the PIL map's shape, whatever the ribbon map is (its shape
    included). *)
Theorem blank_pil_gives_blank_flare_pil
  (self self1 : PILDetector.t) (pil ribbon_map : ndarray bool) :
  ensure_pil canny dilation thin self = Ok (pil, self1) ->
  ndim pil = 2%nat -> blank pil ->
  exists m,
    flare self ribbon_map = (Returned m, self1) /\
    blank m /\ shape m = shape pil.
Proof.
  intros He Hdim Hblank. exists (zeros_like pil).
  unfold flare, find_flare_pil. rewrite He, (contours_blank pil Hdim Hblank).
  split; [reflexivity | split; [|reflexivity]].
  intros i. unfold bnth, zeros_like. simpl.
  revert i. induction (flat pil) as [|b l IH]; intros [|i]; simpl;
    try reflexivity. apply IH.
Qed.

(** X10: on a detector on which neither [identify_polarity_regions]
    nor [extract_pil] has run, [find_flare_pil] fails with the
    [AttributeError] that [canny] raises on the missing polarity map,
    whatever the ribbon map and the contour finder, and leaves the
    detector as it was. *)
Theorem find_flare_pil_needs_polarity_maps
  (magnetogram : ndarray float) (ribbon_map : ndarray bool) :
  flare (PILDetector.init magnetogram) ribbon_map =
  (Failed AttributeError, PILDetector.init magnetogram).
Proof. reflexivity. Qed.

(** X14: a stored PIL map is reused as it is.  Running
    [identify_polarity_regions] again, with any thresholds, after the
    PIL map was extracted leaves the outcome of [find_flare_pil]
    unchanged: the map of the earlier thresholds is used. *)
Theorem find_flare_pil_uses_stored_map
  (self self' : PILDetector.t) (stored : ndarray bool)
  (pos_thresh neg_thresh : float) (apply_gaussian : bool) (sigma : float)
  (ribbon_map : ndarray bool) :
  PILDetector.pil_map self = Some stored ->
  PILDetector.identify_polarity_regions gaussian_filter self
    pos_thresh neg_thresh apply_gaussian sigma = Ok self' ->
  fst (flare self' ribbon_map) = fst (flare self ribbon_map) /\
  PILDetector.pil_map (snd (flare self' ribbon_map)) = Some stored.
Proof.
  intros Hs Hid. injection Hid as <-.
  unfold flare, find_flare_pil, ensure_pil. simpl. rewrite Hs.
  destruct (find_contours stored) as [[|c0 cs]|f]; simpl;
    split; first [reflexivity | exact Hs].
Qed.

End FlarePILProperties.

Lemma pixel_contours_on_image
  (image : ndarray bool) (contours : list contour) (c : contour) (p : nat * nat) :
  pixel_contours image = Returned contours -> In c contours -> In p c ->
  bnth image (pixel_index (shape image) p) = true.
Proof.
  unfold pixel_contours. intros H Hc Hp. injection H as <-.
  apply in_map_iff in Hc. destruct Hc as (i & <- & Hi).
  apply filter_In in Hi. destruct Hi as [_ Hi].
  destruct Hp as [Hp|Hp]; [subst p | destruct Hp]. unfold pixel_index. simpl fst. simpl snd.
  set (w := nth 1 (shape image) 0%nat).
  replace (i / w * w + i mod w)%nat with i; [exact Hi|].
  rewrite (Nat.div_mod_eq i w) at 1. lia.
Qed.

Lemma pixel_contours_blank (image : ndarray bool) :
  ndim image = 2%nat -> blank image -> pixel_contours image = Returned [].
Proof.
  intros _ Hb. unfold pixel_contours. f_equal.
  replace (filter (fun i => bnth image i) (seq 0 (length (flat image))))
    with (@nil nat); [reflexivity|].
  symmetry. induction (seq 0 (length (flat image))) as [|i l IH];
    [reflexivity|]. simpl. rewrite (Hb i). exact IH.
Qed.

Lemma blank_of_forallb (m : ndarray bool) :
  forallb negb (flat m) = true -> blank m.
Proof.
  intros H i. unfold bnth. rewrite forallb_forall in H.
  destruct (nth_in_or_default i (flat m) false) as [Hin|Hd];
    [|exact Hd].
  apply negb_true_iff. exact (H _ Hin).
Qed.

Lemma find_flare_pil_takes_first_best_contour_witness :
  FlarePIL.find_flare_pil Reference.edges Reference.dilate Reference.thin_rows
    pixel_contours no_broadcast split_extracted lower_ribbon =
    (Returned (mk_ndarray [4; 4]%nat
       [false; false; false; false;
        false; false; false; false;
        true; false; false; false;
        false; false; false; false]), split_extracted) /\
  pixel_contours split_pil =
    Returned [[(0, 0)]; [(0, 1)]; [(0, 2)]; [(2, 2)]; [(0, 3)]]%nat /\
  exists pre c post k,
    [[(0, 0)]; [(0, 1)]; [(0, 2)]; [(2, 2)]; [(0, 3)]]%nat =
      pre ++ c :: post /\
    FlarePIL.count_ribbon_overlap no_broadcast split_pil lower_ribbon c =
      Ok k /\
    (forall b kb, In b pre ->
       FlarePIL.count_ribbon_overlap no_broadcast split_pil lower_ribbon b =
         Ok kb -> (kb < k)%nat) /\
    (forall b kb, In b post ->
       FlarePIL.count_ribbon_overlap no_broadcast split_pil lower_ribbon b =
         Ok kb -> (kb <= k)%nat) /\
    forall i,
      bnth (mk_ndarray [4; 4]%nat
              [false; false; false; false;
               false; false; false; false;
               true; false; false; false;
               false; false; false; false]) i = true ->
      exists p, In p c /\ i = pixel_index (shape split_pil) p.
Proof.
  split; [reflexivity | split; [reflexivity|]].
  exact (find_flare_pil_takes_first_best_contour Reference.edges
           Reference.dilate Reference.thin_rows pixel_contours no_broadcast
           thin_rows_removes split_extracted lower_ribbon _ split_extracted
           split_pil _ _ eq_refl eq_refl eq_refl).
Defined.

Lemma flare_pil_within_pil_witness :
  FlarePIL.find_flare_pil Reference.edges Reference.dilate Reference.thin_rows
    pixel_contours no_broadcast split_extracted lower_ribbon =
    (Returned (mk_ndarray [4; 4]%nat
       [false; false; false; false;
        false; false; false; false;
        true; false; false; false;
        false; false; false; false]), split_extracted) /\
  exists pil,
    PILDetector.pil_map split_extracted = Some pil /\
    forall i,
      bnth (mk_ndarray [4; 4]%nat
              [false; false; false; false;
               false; false; false; false;
               true; false; false; false;
               false; false; false; false]) i = true ->
      bnth pil i = true.
Proof.
  split; [reflexivity|].
  exact (flare_pil_within_pil Reference.edges Reference.dilate
           Reference.thin_rows pixel_contours no_broadcast
           thin_rows_removes pixel_contours_on_image
           split_extracted lower_ribbon _ split_extracted eq_refl).
Defined.

Lemma blank_pil_gives_blank_flare_pil_witness :
  FlarePIL.ensure_pil Reference.edges Reference.dilate Reference.thin_rows
    positive_detector = Ok (no_pixels, positive_extracted) /\
  ndim no_pixels = 2%nat /\ blank no_pixels /\
  exists m,
    FlarePIL.find_flare_pil Reference.edges Reference.dilate
      Reference.thin_rows pixel_contours no_broadcast positive_detector
      (mk_ndarray [5]%nat [true; false; true; true; false]) =
      (Returned m, positive_extracted) /\
    blank m /\ shape m = shape no_pixels.
Proof.
  assert (Hb : blank no_pixels) by (apply blank_of_forallb; reflexivity).
  split; [reflexivity | split; [reflexivity | split; [exact Hb|]]].
  exact (blank_pil_gives_blank_flare_pil Reference.edges Reference.dilate
           Reference.thin_rows pixel_contours no_broadcast
           pixel_contours_blank positive_detector positive_extracted
           no_pixels _ eq_refl eq_refl Hb).
Defined.

Lemma find_flare_pil_uses_stored_map_witness :
  PILDetector.pil_map split_extracted = Some split_pil /\
  exists self',
    PILDetector.identify_polarity_regions Reference.no_smoothing
      split_extracted 150 (-150) false 3 = Ok self' /\
    fst (FlarePIL.find_flare_pil Reference.edges Reference.dilate
           Reference.thin_rows pixel_contours no_broadcast self'
           lower_ribbon) =
    fst (FlarePIL.find_flare_pil Reference.edges Reference.dilate
           Reference.thin_rows pixel_contours no_broadcast split_extracted
           lower_ribbon) /\
    PILDetector.pil_map
      (snd (FlarePIL.find_flare_pil Reference.edges Reference.dilate
              Reference.thin_rows pixel_contours no_broadcast self'
              lower_ribbon)) = Some split_pil.
Proof.
  split; [reflexivity|].
  eexists. split; [reflexivity|].
  exact (find_flare_pil_uses_stored_map Reference.no_smoothing
           Reference.edges Reference.dilate Reference.thin_rows
           pixel_contours no_broadcast split_extracted _ split_pil
           150 (-150) false 3 lower_ribbon eq_refl eq_refl).
Defined.

(** * magnetic_field.py *)

Lemma firstn_1_skipn {A : Type} (d : A) (l : list A) (i : nat) :
  (i < length l)%nat -> firstn 1 (skipn i l) = [nth i l d].
Proof.
  revert i. induction l as [|a l IH]; intros [|i] Hi; simpl in *;
    try lia; [reflexivity|]. apply IH. lia.
Qed.

Lemma rows_of_vector (l : list float) (idx : list nat) :
  (forall i, In i idx -> (i < length l)%nat) ->
  flat_map (fun i => firstn 1 (skipn (i * 1) l)) idx =
  map (fun i => fnth l i) idx.
Proof.
  induction idx as [|i idx IH]; intros H; [reflexivity|].
  cbn [flat_map map]. rewrite Nat.mul_1_r.
  rewrite (firstn_1_skipn 0%float) by (apply H; left; reflexivity).
  cbn [app]. unfold fnth at 1. f_equal. apply IH. intros j Hj. apply H. right. exact Hj.
Qed.

Lemma slice_last_index (start stop step len j : nat) :
  (0 < step)%nat -> (j < slice_len start stop step len)%nat ->
  (start + j * step < Nat.min stop len)%nat.
Proof.
  unfold slice_len. intros Hs Hj.
  destruct (Nat.ltb_spec start (Nat.min stop len)) as [Hlt|]; [|lia].
  set (m := Nat.min stop len) in *.
  assert (Hj' : (j <= (m - start - 1) / step)%nat) by lia.
  assert (Hd : (step * ((m - start - 1) / step) <= m - start - 1)%nat)
    by (apply Nat.Div0.mul_div_le).
  nia.
Qed.

(** A slice of a vector: the entries at [start], [start + step], ... *)
Lemma getslice_vector (a : ndarray float) (len start stop step : nat) :
  shape a = [len] -> length (flat a) = len -> (0 < step)%nat ->
  getslice a start stop step =
  Ok (mk_ndarray [slice_len start stop step len]
        (map (fun j => fnth (flat a) (start + j * step))
             (seq 0 (slice_len start stop step len)))).
Proof.
  intros Hs Hl Hstep. unfold getslice. rewrite Hs. simpl fold_right.
  rewrite length_map, length_seq. f_equal. f_equal.
  rewrite rows_of_vector.
  - rewrite map_map. reflexivity.
  - intros i Hi. apply in_map_iff in Hi. destruct Hi as (j & <- & Hj).
    apply in_seq in Hj.
    pose proof (slice_last_index start stop step len j Hstep) as H.
    rewrite Hl. lia.
Qed.

Lemma slice_len_full (k n len : nat) :
  (k < 3)%nat -> (0 < n)%nat -> (3 * n <= len)%nat ->
  slice_len k (3 * n) 3 len = n.
Proof.
  intros Hk Hn Hlen. unfold slice_len.
  rewrite Nat.min_l by exact Hlen.
  destruct (Nat.ltb_spec k (3 * n)) as [_|]; [|lia].
  assert (H : ((3 * n - k - 1) / 3 = n - 1)%nat).
  { symmetry. apply Nat.div_unique with (r := (2 - k)%nat); lia. }
  rewrite H. lia.
Qed.

Lemma slice_len_short (n len : nat) :
  (len < 3 * n)%nat -> (slice_len 2 (3 * n) 3 len < n)%nat.
Proof.
  intros Hlen. unfold slice_len.
  rewrite Nat.min_r by lia.
  destruct (Nat.ltb_spec 2 len) as [H2|]; [|lia].
  assert (H : ((len - 2 - 1) / 3 < n)%nat).
  { apply Nat.Div0.div_lt_upper_bound. lia. }
  assert (H' : ((len - 2 - 1) / 3 + 1 <= len / 3)%nat).
  { replace len with ((len - 3) + 1 * 3)%nat at 2 by lia.
    rewrite Nat.div_add by lia. replace (len - 2 - 1)%nat with (len - 3)%nat by lia. lia. }
  assert (H'' : (len / 3 < n)%nat) by (apply Nat.Div0.div_lt_upper_bound; lia).
  lia.
Qed.

Lemma component_full (bd : ndarray float) (len k : nat)
  (cfg : MagneticField.GridConfig) :
  shape bd = [len] -> length (flat bd) = len -> (k < 3)%nat ->
  (0 < MagneticField.nx cfg * MagneticField.ny cfg)%nat ->
  (3 * (MagneticField.nx cfg * MagneticField.ny cfg) <= len)%nat ->
  MagneticField.component bd k
    (MagneticField.nx cfg * MagneticField.ny cfg) cfg =
  Ok (mk_ndarray [MagneticField.nx cfg; MagneticField.ny cfg]
        (map (fun j => fnth (flat bd) (k + j * 3))
             (seq 0 (MagneticField.nx cfg * MagneticField.ny cfg)))).
Proof.
  intros Hs Hl Hk Hn Hlen. unfold MagneticField.component.
  rewrite (getslice_vector bd len k _ 3 Hs Hl) by lia.
  rewrite slice_len_full by assumption.
  cbn [bind]. unfold reshape. cbn [flat fold_right].
  rewrite length_map, length_seq, Nat.mul_1_r, Nat.eqb_refl. reflexivity.
Qed.

Lemma component_short (bd : ndarray float) (len : nat)
  (cfg : MagneticField.GridConfig) :
  shape bd = [len] -> length (flat bd) = len ->
  (len < 3 * (MagneticField.nx cfg * MagneticField.ny cfg))%nat ->
  raises (MagneticField.component bd 2
            (MagneticField.nx cfg * MagneticField.ny cfg) cfg).
Proof.
  intros Hs Hl Hlen. unfold MagneticField.component.
  rewrite (getslice_vector bd len 2 _ 3 Hs Hl) by lia.
  pose proof (slice_len_short _ _ Hlen) as Hshort.
  cbn [bind]. unfold reshape. cbn [flat fold_right].
  rewrite length_map, length_seq, Nat.mul_1_r.
  destruct (Nat.eqb_spec (slice_len 2 (3 * (MagneticField.nx cfg * MagneticField.ny cfg)) 3 len)
              (MagneticField.nx cfg * MagneticField.ny cfg)) as [E|_]; [lia|].
  eexists. reflexivity.
Qed.

Lemma sqrt_not_negative (z : float) : (PrimFloat.sqrt z <? 0) = false.
Proof.
  rewrite FloatAxioms.ltb_spec, FloatAxioms.sqrt_spec.
  change (Prim2SF 0) with (S754_zero false).
  destruct (Prim2SF z) as [[|]|[|]| |[|] m e]; try reflexivity.
  unfold SF64sqrt, SFsqrt. destruct (SFsqrt_core_binary prec emax (Z.pos m) e) as [[mz ez] lz].
  unfold binary_round_aux.
  destruct (shr_fexp prec emax mz ez lz) as [mrs' e'].
  match goal with
  | |- context [shr_fexp prec emax ?a e' loc_Exact] =>
      destruct (shr_fexp prec emax a e' loc_Exact) as [mrs'' e'']
  end.
  destruct (shr_m mrs'') as [|q|q]; [reflexivity | | reflexivity].
  destruct (e'' <=? emax - prec)%Z; reflexivity.
Qed.

Lemma block_full (data : list float) (k n : nat) (s : list nat) :
  ((k + 1) * n <= length data)%nat -> fold_right Nat.mul 1%nat s = n ->
  MagneticField.block data k n s =
  Ok (mk_ndarray s (firstn n (skipn (k * n) data))).
Proof.
  intros Hlen Hs. unfold MagneticField.block, reshape. cbn [flat].
  rewrite length_firstn, length_skipn, Hs.
  replace (Nat.min n (length data - k * n)) with n by lia.
  rewrite Nat.eqb_refl. reflexivity.
Qed.

Lemma block_short (data : list float) (n : nat) (s : list nat) :
  (length data < 3 * n)%nat -> fold_right Nat.mul 1%nat s = n ->
  raises (MagneticField.block data 2 n s).
Proof.
  intros Hlen Hs. unfold MagneticField.block, reshape. cbn [flat].
  rewrite length_firstn, length_skipn, Hs.
  destruct (Nat.eqb_spec (Nat.min n (length data - 2 * n)) n) as [E|_]; [lia|].
  eexists. reflexivity.
Qed.

(** The only exception of a block is the one of the reshaping. *)
Lemma block_raises (data : list float) (k n : nat) (s : list nat) (e : exn) :
  MagneticField.block data k n s = Raise e -> e = ValueError.
Proof.
  unfold MagneticField.block, reshape.
  destruct (_ =? _)%nat; [discriminate|]. intros H. injection H as <-.
  reflexivity.
Qed.

Lemma load_3d_field_failure (self : MagneticField.t)
  (cfg : MagneticField.GridConfig) (data : list float) (f : failure) :
  MagneticField.config self = Some cfg ->
  MagneticField.load_3d_field self data = Failed f ->
  f = Builtin ValueError.
Proof.
  intros Hc. unfold MagneticField.load_3d_field. rewrite Hc.
  destruct (MagneticField.block data 0 _ _) as [b0|e0] eqn:H0; cbn [bind lift].
  2:{ intros H. injection H as <-. f_equal. exact (block_raises _ _ _ _ _ H0). }
  destruct (MagneticField.block data 1 _ _) as [b1|e1] eqn:H1; cbn [bind lift].
  2:{ intros H. injection H as <-. f_equal. exact (block_raises _ _ _ _ _ H1). }
  destruct (MagneticField.block data 2 _ _) as [b2|e2] eqn:H2; cbn [bind lift].
  - discriminate.
  - intros H. injection H as <-. f_equal. exact (block_raises _ _ _ _ _ H2).
Qed.

Lemma block_entry (data : list float) (k n i : nat) :
  (i < n)%nat ->
  fnth (firstn n (skipn (k * n) data)) i = fnth data (k * n + i).
Proof.
  intros Hi. unfold fnth. rewrite nth_firstn.
  destruct (Nat.ltb_spec i n) as [_|]; [|lia]. apply nth_skipn.
Qed.

Lemma extents_product (cfg : MagneticField.GridConfig) :
  fold_right Nat.mul 1%nat
    [MagneticField.nx cfg; MagneticField.ny cfg; MagneticField.nz cfg] =
  (MagneticField.nx cfg * MagneticField.ny cfg * MagneticField.nz cfg)%nat.
Proof. cbn [fold_right]. lia. Qed.

(** What [load_3d_field] returns when the file is long enough. *)
Lemma load_3d_field_value (self : MagneticField.t)
  (cfg : MagneticField.GridConfig) (data : list float) :
  MagneticField.config self = Some cfg ->
  (3 * (MagneticField.nx cfg * MagneticField.ny cfg * MagneticField.nz cfg)
   <= length data)%nat ->
  let n := (MagneticField.nx cfg * MagneticField.ny cfg *
            MagneticField.nz cfg)%nat in
  let s := [MagneticField.nx cfg; MagneticField.ny cfg;
            MagneticField.nz cfg] in
  let bx_3d := mk_ndarray s (firstn n (skipn (0 * n) data)) in
  let by_3d := mk_ndarray s (firstn n (skipn (1 * n) data)) in
  let bz_3d := mk_ndarray s (firstn n (skipn (2 * n) data)) in
  MagneticField.load_3d_field self data =
  Returned (mk_field bx_3d by_3d bz_3d
              (MagneticField.horizontal_strength bx_3d by_3d)).
Proof.
  intros Hc Hlen n s bx_3d by_3d bz_3d.
  unfold MagneticField.load_3d_field. rewrite Hc.
  fold n. fold s.
  rewrite !block_full by (first [apply extents_product | fold n; lia]).
  reflexivity.
Qed.

(** A returned dictionary is the one of [load_3d_field_value]. *)
Lemma load_3d_field_returned (self : MagneticField.t) (data : list float)
  (f : field_dict) :
  MagneticField.load_3d_field self data = Returned f ->
  exists cfg,
    MagneticField.config self = Some cfg /\
    (3 * (MagneticField.nx cfg * MagneticField.ny cfg * MagneticField.nz cfg)
     <= length data)%nat.
Proof.
  unfold MagneticField.load_3d_field.
  destruct (MagneticField.config self) as [cfg|]; [|discriminate].
  intros H. exists cfg. split; [reflexivity|].
  destruct (Nat.le_gt_cases
              (3 * (MagneticField.nx cfg * MagneticField.ny cfg *
                    MagneticField.nz cfg)) (length data)) as [Hle|Hgt];
    [exact Hle|].
  exfalso.
  destruct (block_short data _ _ Hgt (extents_product cfg)) as [e He].
  rewrite He in H.
  destruct (MagneticField.block data 0 _ _); [|discriminate].
  destruct (MagneticField.block data 1 _ _); discriminate.
Qed.

Section MagneticFieldProperties.

Import MagneticField.

Variable line : Type.
Variable int : line -> result nat.

(** X15: a boundary file of one column with at least [3 * nx * ny]
    values is split pixel by pixel: value [3 i] goes to [bx], value
    [3 i + 1] to [by] and value [3 i + 2] to [bz], each of shape
    [(nx, ny)], and the three arrays are stored on the object together
    with the grid configuration. *)
Theorem load_boundary_field_deinterleaves
  (self : t) (params : list line) (boundary_data : ndarray float)
  (len : nat) (cfg : GridConfig) :
  shape boundary_data = [len] -> length (flat boundary_data) = len ->
  _read_grid_config line int params = Ok cfg ->
  (0 < nx cfg * ny cfg)%nat -> (3 * (nx cfg * ny cfg) <= len)%nat ->
  exists bx' by' bz',
    load_boundary_field line int self params boundary_data =
      (Ok (bx', by', bz'), mk (Some cfg) (Some bx') (Some by') (Some bz')) /\
    shape bx' = [nx cfg; ny cfg] /\ shape by' = [nx cfg; ny cfg] /\
    shape bz' = [nx cfg; ny cfg] /\
    forall i, (i < nx cfg * ny cfg)%nat ->
      fnth (flat bx') i = fnth (flat boundary_data) (3 * i) /\
      fnth (flat by') i = fnth (flat boundary_data) (3 * i + 1) /\
      fnth (flat bz') i = fnth (flat boundary_data) (3 * i + 2).
Proof.
  intros Hs Hl Hcfg Hn Hlen. unfold load_boundary_field. rewrite Hcfg.
  cbv zeta.
  rewrite !(component_full boundary_data len) by (assumption || lia).
  cbn [bind]. eexists _, _, _. split; [reflexivity|].
  split; [reflexivity | split; [reflexivity | split; [reflexivity|]]].
  intros i Hi. cbn [flat]. unfold fnth.
  assert (Hnth : forall k,
            nth i (map (fun j => nth (k + j * 3) (flat boundary_data) 0%float)
                       (seq 0 (nx cfg * ny cfg))) 0%float =
            nth (k + i * 3) (flat boundary_data) 0%float).
  { intros k.
    set (g := fun j => nth (k + j * 3) (flat boundary_data) 0%float).
    rewrite (nth_indep _ 0%float (g 0%nat))
      by (rewrite length_map, length_seq; exact Hi).
    rewrite map_nth, seq_nth by exact Hi. reflexivity. }
  rewrite !Hnth.
  replace (0 + i * 3)%nat with (3 * i)%nat by lia.
  replace (1 + i * 3)%nat with (3 * i + 1)%nat by lia.
  replace (2 + i * 3)%nat with (3 * i + 2)%nat by lia.
  split; [reflexivity | split; reflexivity].
Qed.

(** X16: when the grid file was read and the one-column boundary file
    has fewer than [3 * nx * ny] values, [load_boundary_field] raises;
    the object then holds the new grid configuration beside the
    components it had before the call. *)
Theorem load_boundary_field_short_file
  (self : t) (params : list line) (boundary_data : ndarray float)
  (len : nat) (cfg : GridConfig) :
  shape boundary_data = [len] -> length (flat boundary_data) = len ->
  _read_grid_config line int params = Ok cfg ->
  (len < 3 * (nx cfg * ny cfg))%nat ->
  exists e,
    load_boundary_field line int self params boundary_data =
    (Raise e, mk (Some cfg) (bx self) (by_ self) (bz self)).
Proof.
  intros Hs Hl Hcfg Hlen. unfold load_boundary_field. rewrite Hcfg.
  cbv zeta.
  destruct (component_short boundary_data len cfg Hs Hl Hlen) as [e He].
  rewrite He.
  destruct (component boundary_data 0 _ cfg) as [b0|e0]; cbn [bind];
    [|eexists; reflexivity].
  destruct (component boundary_data 1 _ cfg) as [b1|e1]; cbn [bind];
    eexists; reflexivity.
Qed.

(** X17: a grid file of fewer than six lines makes
    [load_boundary_field] raise, whatever the boundary file holds, and
    the object is left as it was. *)
Theorem load_boundary_field_short_grid_file
  (self : t) (params : list line) (boundary_data : ndarray float) :
  (length params < 6)%nat ->
  exists e,
    load_boundary_field line int self params boundary_data = (Raise e, self).
Proof.
  intros Hlen. unfold load_boundary_field, _read_grid_config.
  assert (H5 : @getitem line params 5 = Raise IndexError).
  { unfold getitem.
    assert (Hn : nth_error params 5 = None)
      by (apply nth_error_None; lia).
    rewrite Hn. reflexivity. }
  rewrite H5.
  destruct (getitem params 1) as [s1|e1]; cbn [bind];
    [|eexists; reflexivity].
  destruct (int s1) as [n1|e1]; cbn [bind]; [|eexists; reflexivity].
  destruct (getitem params 3) as [s3|e3]; cbn [bind];
    [|eexists; reflexivity].
  destruct (int s3) as [n3|e3]; cbn [bind]; eexists; reflexivity.
Qed.

(** X18: on an object without grid configuration, [load_3d_field]
    called after [load_boundary_field] fails with [AttributeError]
    exactly when reading the grid file raised: once the grid file was
    read the configuration is there, also when the boundary file was
    rejected afterwards. *)
Theorem load_3d_field_needs_grid_file
  (self : t) (params : list line) (boundary_data : ndarray float)
  (r : result (ndarray float * ndarray float * ndarray float)) (self1 : t)
  (field_data : list float) :
  config self = None ->
  load_boundary_field line int self params boundary_data = (r, self1) ->
  (load_3d_field self1 field_data = Failed AttributeError <->
   raises (_read_grid_config line int params)).
Proof.
  intros Hnone. unfold load_boundary_field.
  destruct (_read_grid_config line int params) as [cfg|e] eqn:Hcfg.
  - cbv zeta.
    assert (Hset : forall s, config s = Some cfg ->
              load_3d_field s field_data <> Failed AttributeError).
    { intros s Hc Hf.
      pose proof (load_3d_field_failure s cfg field_data _ Hc Hf) as E.
      discriminate E. }
    destruct (bind _ _) as [[[bx' by'] bz']|e];
      intros H; injection H as <- <-;
      (split; [intros Hf; exfalso; revert Hf; apply Hset; reflexivity
              | intros [e' He']; discriminate]).
  - intros H. injection H as <- <-.
    split; [intros _; exists e; reflexivity|].
    intros _. unfold load_3d_field. rewrite Hnone. reflexivity.
Qed.

End MagneticFieldProperties.

(** X19: with a grid configuration of at least one cell and a field
    file of at least [3 * nx * ny * nz] values, [load_3d_field] returns
    four arrays of shape [(nx, ny, nz)]: [bx], [by] and [bz] are the
    first, second and third run of [nx * ny * nz] values, and [bh] is
    the square root of the sum of the squares of [bx] and [by], entry
    by entry. *)
Theorem load_3d_field_splits_in_thirds
  (self : MagneticField.t) (cfg : MagneticField.GridConfig)
  (field_data : list float) :
  let n := (MagneticField.nx cfg * MagneticField.ny cfg *
            MagneticField.nz cfg)%nat in
  let s := [MagneticField.nx cfg; MagneticField.ny cfg;
            MagneticField.nz cfg] in
  MagneticField.config self = Some cfg ->
  (0 < n)%nat -> (3 * n <= length field_data)%nat ->
  exists f,
    MagneticField.load_3d_field self field_data = Returned f /\
    shape (bx f) = s /\ shape (by_ f) = s /\ shape (bz f) = s /\
    shape (bh f) = s /\
    forall i, (i < n)%nat ->
      fnth (flat (bx f)) i = fnth field_data i /\
      fnth (flat (by_ f)) i = fnth field_data (n + i) /\
      fnth (flat (bz f)) i = fnth field_data (2 * n + i) /\
      fnth (flat (bh f)) i =
        PrimFloat.sqrt (fnth field_data i * fnth field_data i +
                        fnth field_data (n + i) * fnth field_data (n + i)).
Proof.
  intros n s Hc Hn Hlen. eexists. split.
  { apply (load_3d_field_value self cfg field_data Hc Hlen). }
  cbn [bx by_ bz bh shape flat MagneticField.horizontal_strength].
  split; [reflexivity | split; [reflexivity | split; [reflexivity |
    split; [reflexivity|]]]].
  fold n. intros i Hi.
  pose proof (block_entry field_data 0 n i Hi) as H0.
  pose proof (block_entry field_data 1 n i Hi) as H1.
  pose proof (block_entry field_data 2 n i Hi) as H2.
  replace (0 * n + i)%nat with i in H0 by lia.
  replace (1 * n + i)%nat with (n + i)%nat in H1 by lia.
  split; [exact H0 | split; [exact H1 | split; [exact H2|]]].
  unfold fnth at 1.
  set (g := fun p : float * float =>
              PrimFloat.sqrt (fst p * fst p + snd p * snd p)).
  assert (Hlen0 : length (firstn n (skipn (0 * n) field_data)) = n)
    by (rewrite length_firstn, length_skipn; lia).
  assert (Hlen1 : length (firstn n (skipn (1 * n) field_data)) = n)
    by (rewrite length_firstn, length_skipn; lia).
  rewrite (nth_indep _ 0%float (g (0%float, 0%float)))
    by (rewrite length_map, length_combine, Hlen0, Hlen1; lia).
  rewrite map_nth, combine_nth by (rewrite Hlen0, Hlen1; reflexivity).
  unfold g. cbn [fst snd]. fold (fnth (firstn n (skipn (0 * n) field_data)) i).
  fold (fnth (firstn n (skipn (1 * n) field_data)) i).
  rewrite H0, H1. reflexivity.
Qed.

(** X20: with a grid configuration and a field file of fewer than
    [3 * nx * ny * nz] values, [load_3d_field] fails with an exception
    of the reshaping, not with the [AttributeError] of a missing
    configuration; no shorter array is returned. *)
Theorem load_3d_field_short_file
  (self : MagneticField.t) (cfg : MagneticField.GridConfig)
  (field_data : list float) :
  MagneticField.config self = Some cfg ->
  (length field_data <
   3 * (MagneticField.nx cfg * MagneticField.ny cfg * MagneticField.nz cfg))%nat ->
  exists e,
    MagneticField.load_3d_field self field_data = Failed (Builtin e) /\
    e <> AttributeError.
Proof.
  intros Hc Hlen.
  destruct (MagneticField.load_3d_field self field_data) as [f|fl] eqn:H.
  - apply load_3d_field_returned in H. destruct H as (cfg' & Hc' & Hle).
    rewrite Hc in Hc'. injection Hc' as <-. lia.
  - rewrite (load_3d_field_failure self cfg field_data fl Hc H).
    exists ValueError. split; [reflexivity | discriminate].
Qed.


(** X22: no entry of the horizontal field strength [bh] that
    [load_3d_field] returns is below zero, whatever the file holds
    (NaN and infinite values included). *)
Theorem horizontal_field_not_negative
  (self : MagneticField.t) (field_data : list float) (f : field_dict)
  (i : nat) :
  MagneticField.load_3d_field self field_data = Returned f ->
  (fnth (flat (bh f)) i <? 0) = false.
Proof.
  intros H.
  destruct (load_3d_field_returned self field_data f H) as (cfg & Hc & Hle).
  rewrite (load_3d_field_value self cfg field_data Hc Hle) in H.
  injection H as <-.
  cbn [bh flat MagneticField.horizontal_strength]. unfold fnth.
  match goal with
  | |- (nth i ?l 0 <? 0) = false =>
      destruct (nth_in_or_default i l 0%float) as [Hin|Hd]
  end.
  - apply in_map_iff in Hin. destruct Hin as (p & <- & _).
    apply sqrt_not_negative.
  - rewrite Hd. reflexivity.
Qed.

Lemma load_boundary_field_deinterleaves_witness :
  MagneticField._read_grid_config (option nat) int_of_line grid_lines =
    Ok grid_config /\
  exists bx' by' bz',
    MagneticField.load_boundary_field (option nat) int_of_line
      MagneticField.init grid_lines boundary_values =
      (Ok (bx', by', bz'),
       MagneticField.mk (Some grid_config) (Some bx') (Some by') (Some bz')) /\
    shape bx' = [2; 2]%nat /\ shape by' = [2; 2]%nat /\
    shape bz' = [2; 2]%nat /\
    forall i, (i < 4)%nat ->
      fnth (flat bx') i = fnth (flat boundary_values) (3 * i) /\
      fnth (flat by') i = fnth (flat boundary_values) (3 * i + 1) /\
      fnth (flat bz') i = fnth (flat boundary_values) (3 * i + 2).
Proof.
  split; [reflexivity|].
  apply (load_boundary_field_deinterleaves (option nat) int_of_line
           MagneticField.init grid_lines boundary_values 12 grid_config
           eq_refl eq_refl eq_refl); simpl; lia.
Defined.

Lemma load_boundary_field_short_file_witness :
  MagneticField._read_grid_config (option nat) int_of_line grid_lines =
    Ok grid_config /\
  exists e,
    MagneticField.load_boundary_field (option nat) int_of_line
      MagneticField.init grid_lines
      (mk_ndarray [11]%nat [1; 2; 3; 4; 5; 6; 7; 8; 9; 10; 11]) =
    (Raise e, configured).
Proof.
  split; [reflexivity|].
  apply (load_boundary_field_short_file (option nat) int_of_line
           MagneticField.init grid_lines
           (mk_ndarray [11]%nat [1; 2; 3; 4; 5; 6; 7; 8; 9; 10; 11])
           11 grid_config eq_refl eq_refl eq_refl); simpl; lia.
Defined.

Lemma load_boundary_field_short_grid_file_witness :
  (length [None; Some 2; None; Some 2]%nat < 6)%nat /\
  exists e,
    MagneticField.load_boundary_field (option nat) int_of_line
      MagneticField.init [None; Some 2; None; Some 2]%nat boundary_values =
    (Raise e, MagneticField.init).
Proof.
  assert (H : (length [None; Some 2; None; Some 2]%nat < 6)%nat)
    by (simpl; lia).
  split; [exact H|].
  exact (load_boundary_field_short_grid_file (option nat) int_of_line
           MagneticField.init [None; Some 2; None; Some 2]%nat
           boundary_values H).
Defined.

Lemma load_3d_field_needs_grid_file_witness :
  MagneticField.load_boundary_field (option nat) int_of_line
    MagneticField.init grid_lines
    (mk_ndarray [11]%nat [1; 2; 3; 4; 5; 6; 7; 8; 9; 10; 11]) =
    (Raise ValueError, configured) /\
  (MagneticField.load_3d_field configured field_values =
     Failed AttributeError <->
   raises (MagneticField._read_grid_config (option nat) int_of_line
             grid_lines)).
Proof.
  split; [reflexivity|].
  exact (load_3d_field_needs_grid_file (option nat) int_of_line
           MagneticField.init grid_lines
           (mk_ndarray [11]%nat [1; 2; 3; 4; 5; 6; 7; 8; 9; 10; 11])
           (Raise ValueError) configured field_values eq_refl eq_refl).
Defined.

Lemma load_3d_field_splits_in_thirds_witness :
  MagneticField.config configured = Some grid_config /\
  exists f,
    MagneticField.load_3d_field configured field_values = Returned f /\
    shape (bx f) = [2; 2; 3]%nat /\ shape (by_ f) = [2; 2; 3]%nat /\
    shape (bz f) = [2; 2; 3]%nat /\ shape (bh f) = [2; 2; 3]%nat /\
    forall i, (i < 12)%nat ->
      fnth (flat (bx f)) i = fnth field_values i /\
      fnth (flat (by_ f)) i = fnth field_values (12 + i) /\
      fnth (flat (bz f)) i = fnth field_values (2 * 12 + i) /\
      fnth (flat (bh f)) i =
        PrimFloat.sqrt (fnth field_values i * fnth field_values i +
                        fnth field_values (12 + i) *
                        fnth field_values (12 + i)).
Proof.
  split; [reflexivity|].
  apply (load_3d_field_splits_in_thirds configured grid_config field_values
           eq_refl); simpl; lia.
Defined.

Lemma load_3d_field_short_file_witness :
  MagneticField.config configured = Some grid_config /\
  exists e,
    MagneticField.load_3d_field configured (firstn 35 field_values) =
    Failed (Builtin e) /\
    e <> AttributeError.
Proof.
  split; [reflexivity|].
  apply (load_3d_field_short_file configured grid_config
           (firstn 35 field_values) eq_refl); simpl; lia.
Defined.


Lemma horizontal_field_not_negative_witness :
  exists f,
    MagneticField.load_3d_field configured field_values = Returned f /\
    fnth (flat (bh f)) 0 = 5%float /\
    (fnth (flat (bh f)) 0 <? 0) = false.
Proof.
  eexists. split; [reflexivity | split; [reflexivity|]].
  exact (horizontal_field_not_negative configured field_values _ 0%nat
           eq_refl).
Defined.
